(** * DataMerger: a shallow embedding of [src/merger/data_merger.py]

    The merger is written against pandas (>= 2.1.1, see [setup.py]) and
    rapidfuzz.  The methods of [DataMerger] are transcribed one by one in
    the second half of the model; its first half models the library calls
    they make, following the documented behaviour of pandas 2.x and of
    [rapidfuzz.fuzz.ratio].

    Scope of the model.
    - [merge] is taken as a function of its three arguments.  The import
      line of the module, the abstract base class [DataProcessor] and the
      logger are not modelled, and rapidfuzz is taken to be installed.
    - A cell holds [None], [NaN], an integer, a float or a string, and the
      cells of a column fit its dtype ([int64], [float64] or [object]).
      Floats are the rationals they denote: rounding of IEEE arithmetic is
      not modelled.  Lists, sets, booleans and timestamps as cell values
      are not modelled.
    - Column labels are strings, and the labels of one frame are taken to
      be distinct; on a frame with a repeated label pandas' label lookup
      returns a sub-frame, which the model does not cover (the lookup
      below returns the first column of that name).
    - Strings are byte strings: lower-casing, lengths and edit distances
      agree with Python on ASCII text.
    - A [Series] carries no dtype of its own: its cells keep the
      representation they had when they were read from a frame.
    - Records, frames and dicts keep their labels in order, as pandas and
      Python do, so they are lists of labelled entries.
    - The text of a message raised inside pandas is given where pandas
      fixes it; what matters below is that the call raises. *)

From Stdlib Require Import ZArith QArith Qround List String Ascii Bool Lia.
From Stdlib Require DecimalString.
Import ListNotations.
Local Open Scope string_scope.
Local Open Scope Z_scope.

(* ===================================================================== *)
(** ** Python values and exceptions *)
(* ===================================================================== *)

Inductive Value : Type :=
| VNone
| VNaN
| VInt (z : Z)
| VFloat (q : Q)
| VStr (s : string).

Inductive ExnClass : Type :=
| ValueError | ValidationError | KeyError | TypeError | IndexError
| AttributeError | ZeroDivisionError | MergeError | OtherError.

(** An exception: its class and [str(e)]. *)
Record Exn : Type := mkExn { exn_class : ExnClass; exn_msg : string }.

Inductive pyres (A : Type) : Type :=
| Ok (a : A)
| Raise (e : Exn).
Arguments Ok {A} a.
Arguments Raise {A} e.

Definition bind {A B : Type} (m : pyres A) (k : A -> pyres B) : pyres B :=
  match m with
  | Ok a => k a
  | Raise e => Raise e
  end.

Notation "x <- m ;; k" := (bind m (fun x => k))
  (at level 61, m at next level, right associativity).

(** [KeyError(k)]: [str] of a [KeyError] is the [repr] of the key. *)
Definition key_error (k : string) : Exn := mkExn KeyError ("'" ++ k ++ "'").

(* ===================================================================== *)
(** ** Scalars: [str], [==], [<], [pd.isna], [str.lower] *)
(* ===================================================================== *)

Definition string_of_Z (z : Z) : string :=
  DecimalString.NilZero.string_of_int (Z.to_int z).

Definition digit_char (d : Z) : string :=
  String (ascii_of_nat (48 + Z.to_nat d)) EmptyString.

(** Decimal digits of [num / den] after the point, while they last. *)
Fixpoint frac_digits (fuel : nat) (num den : Z) : string :=
  match fuel with
  | O => ""
  | S fuel' =>
      if num =? 0 then ""
      else digit_char ((10 * num) / den)
             ++ frac_digits fuel' ((10 * num) mod den) den
  end.

(** [repr] of a float.  A whole float prints as [3.0]; another float prints
    its decimal expansion, which is what Python prints for a short decimal
    (0.5, 2.75, 0.1). *)
Definition float_repr (q : Q) : string :=
  let n := Qnum q in
  let d := Zpos (Qden q) in
  let whole := Z.abs n / d in
  let rest := Z.abs n mod d in
  (if n <? 0 then "-" else "")
    ++ string_of_Z whole ++ "."
    ++ (if rest =? 0 then "0" else frac_digits 17 rest d).

Definition py_str (v : Value) : string :=
  match v with
  | VNone => "None"
  | VNaN => "nan"
  | VInt z => string_of_Z z
  | VFloat q => float_repr q
  | VStr s => s
  end.

Definition num_of (v : Value) : option Q :=
  match v with
  | VInt z => Some (inject_Z z)
  | VFloat q => Some q
  | _ => None
  end.

(** [pd.isna] on a scalar. *)
Definition isna (v : Value) : bool :=
  match v with
  | VNone | VNaN => true
  | _ => false
  end.

Definition notna (v : Value) : bool := negb (isna v).

(** Python [a == b]: numbers compare by value across int and float, [NaN]
    equals nothing, values of different kinds are unequal. *)
Definition py_eq (a b : Value) : bool :=
  match a, b with
  | VStr s, VStr t => String.eqb s t
  | VNone, VNone => true
  | _, _ =>
      match num_of a, num_of b with
      | Some x, Some y => Qeq_bool x y
      | _, _ => false
      end
  end.

Definition py_ne (a b : Value) : bool := negb (py_eq a b).

Definition Qlt_bool (x y : Q) : bool := negb (Qle_bool y x).

Definition is_number_or_nan (v : Value) : bool :=
  match v with
  | VInt _ | VFloat _ | VNaN => true
  | _ => false
  end.

(** Python [a < b]: defined between numbers (false when one is [NaN]) and
    between strings; otherwise a [TypeError]. *)
Definition py_lt (a b : Value) : pyres bool :=
  match a, b with
  | VStr s, VStr t => Ok (String.ltb s t)
  | _, _ =>
      match num_of a, num_of b with
      | Some x, Some y => Ok (Qlt_bool x y)
      | _, _ =>
          if is_number_or_nan a && is_number_or_nan b then Ok false
          else Raise (mkExn TypeError
                 "'<' not supported between instances of these types")
      end
  end.

(** [a > b] is [b < a]. *)
Definition py_gt (a b : Value) : pyres bool := py_lt b a.

Definition lower_ascii (c : ascii) : ascii :=
  let n := nat_of_ascii c in
  if (Nat.leb 65 n && Nat.leb n 90)%bool then ascii_of_nat (n + 32) else c.

Fixpoint str_lower (s : string) : string :=
  match s with
  | EmptyString => EmptyString
  | String c s' => String (lower_ascii c) (str_lower s')
  end.

(** [s.endswith(suffix)]. *)
Definition endswith (s suffix : string) : bool :=
  let n := String.length s in
  let m := String.length suffix in
  (Nat.leb m n && String.eqb (substring (n - m) m s) suffix)%bool.

(* ===================================================================== *)
(** ** rapidfuzz: [fuzz.ratio] *)
(* ===================================================================== *)

(** Length of a longest common subsequence. *)
Fixpoint lcs_len (xs ys : list ascii) : nat :=
  match xs with
  | [] => O
  | x :: xs' =>
      (fix along (ys : list ascii) : nat :=
         match ys with
         | [] => O
         | y :: ys' =>
             if Ascii.eqb x y then S (lcs_len xs' ys')
             else Nat.max (lcs_len xs' ys) (along ys')
         end) ys
  end.

(** [fuzz.ratio(s1, s2)]: the normalised Indel similarity times 100, that is
    [100 * 2 * lcs / (len s1 + len s2)], and 100 for two empty strings. *)
Definition fuzz_ratio (s1 s2 : string) : Q :=
  let l := (String.length s1 + String.length s2)%nat in
  match l with
  | O => 100 # 1
  | S _ =>
      (200 * Z.of_nat (lcs_len (list_ascii_of_string s1)
                               (list_ascii_of_string s2)))
        # Pos.of_nat l
  end.


(* ===================================================================== *)
(** ** pandas: [Series] *)
(* ===================================================================== *)

(** A row of a frame, or any labelled vector: its name and its cells in
    index order. *)
Record Series : Type := mkSeries {
  s_name : Value;
  s_items : list (string * Value)
}.

(** [record.index]. *)
Definition s_index (s : Series) : list string := map fst (s_items s).

Fixpoint assoc {A : Type} (k : string) (l : list (string * A)) : option A :=
  match l with
  | [] => None
  | (k', v) :: l' => if String.eqb k k' then Some v else assoc k l'
  end.

Definition mem (k : string) (l : list string) : bool :=
  existsb (String.eqb k) l.

(** [field in record.index]. *)
Definition s_has (s : Series) (k : string) : bool := mem k (s_index s).

(** [record[field]]. *)
Definition s_getitem (s : Series) (k : string) : pyres Value :=
  match assoc k (s_items s) with
  | Some v => Ok v
  | None => Raise (key_error k)
  end.

(** [record[field] = v] on a label the record has. *)
Definition s_setitem (s : Series) (k : string) (v : Value) : Series :=
  mkSeries (s_name s)
    (map (fun kv => if String.eqb (fst kv) k then (fst kv, v) else kv)
         (s_items s)).

(** [resolved.update(other)]: aligned on the labels of [resolved], every
    cell for which [other] has a non-null value takes that value; labels
    that only [other] has are not added. *)
Definition s_update (resolved other : Series) : Series :=
  mkSeries (s_name resolved)
    (map (fun kv =>
            match assoc (fst kv) (s_items other) with
            | Some v => if notna v then (fst kv, v) else kv
            | None => kv
            end)
         (s_items resolved)).

(** [record.isna().sum()]. *)
Definition s_null_count (s : Series) : Z :=
  Z.of_nat (List.length (filter (fun kv => isna (snd kv)) (s_items s))).

Fixpoint insert_sorted (k : string) (l : list string) : list string :=
  match l with
  | [] => [k]
  | h :: t => if String.leb k h then k :: l else h :: insert_sorted k t
  end.

Definition sort_strings (l : list string) : list string :=
  fold_right insert_sorted [] l.

Definition list_eqb (l1 l2 : list string) : bool :=
  (Nat.eqb (List.length l1) (List.length l2)
   && forallb (fun p => String.eqb (fst p) (snd p)) (combine l1 l2))%bool.

(** [Index.union] on labels: the left index itself when the other is empty
    or equal, the other when the left is empty, else the sorted union. *)
Definition index_union (l1 l2 : list string) : list string :=
  match l1, l2 with
  | _, [] => l1
  | [], _ => l2
  | _, _ =>
      if list_eqb l1 l2 then l1
      else sort_strings (l1 ++ filter (fun k => negb (mem k l1)) l2)
  end.

(** The cell of [a.combine_first(b)] at a label of the union: the value of
    [a] where [a] has a non-null one, else the value of [b] where [b] has
    the label, else what [a] has. *)
Definition combine_first_cell (a b : Series) (k : string) : Value :=
  match assoc k (s_items a), assoc k (s_items b) with
  | Some va, Some vb => if notna va then va else vb
  | Some va, None => va
  | None, Some vb => vb
  | None, None => VNaN
  end.

(** [a.combine_first(b)]. *)
Definition s_combine_first (a b : Series) : Series :=
  mkSeries (s_name a)
    (map (fun k => (k, combine_first_cell a b k))
         (index_union (s_index a) (s_index b))).

(* ===================================================================== *)
(** ** pandas: [DataFrame] *)
(* ===================================================================== *)

Inductive Dtype : Type := Int64 | Float64 | Object.

Record Column : Type := mkColumn {
  c_name : string;
  c_dtype : Dtype;
  c_values : list Value
}.

(** A frame: its row labels and its columns, each as long as the index. *)
Record DataFrame : Type := mkFrame {
  df_index : list Value;
  df_cols : list Column
}.

(** [len(df)]. *)
Definition nrows (df : DataFrame) : nat := List.length (df_index df).

(** [df.columns]. *)
Definition columns (df : DataFrame) : list string := map c_name (df_cols df).

(** [RangeIndex(n)]. *)
Definition range_index (n : nat) : list Value :=
  map (fun i => VInt (Z.of_nat i)) (seq 0 n).

(** [pd.DataFrame([])]: no rows, no columns. *)
Definition empty_frame : DataFrame := mkFrame [] [].

Definition find_col (k : string) (cols : list Column) : option Column :=
  find (fun c => String.eqb (c_name c) k) cols.

(** [df[key]]. *)
Definition df_getitem (df : DataFrame) (k : string) : pyres Column :=
  match find_col k (df_cols df) with
  | Some c => Ok c
  | None => Raise (key_error k)
  end.

Definition is_int_dtype (d : Dtype) : bool :=
  match d with Int64 => true | _ => false end.

Definition is_numeric_dtype (d : Dtype) : bool :=
  match d with Object => false | _ => true end.

(** [dtype == object]. *)
Definition is_object_dtype (d : Dtype) : bool :=
  match d with Object => true | _ => false end.

(** [pd.api.types.is_string_dtype(dtype)] on a dtype: true for [object]. *)
Definition is_string_dtype (d : Dtype) : bool := is_object_dtype d.

(** The dtype that holds cells of all the given dtypes. *)
Definition common_dtype (ds : list Dtype) : Dtype :=
  if forallb is_int_dtype ds then Int64
  else if forallb is_numeric_dtype ds then Float64
  else Object.

(** A cell as it reads once its column or row has the given dtype: in a
    float vector integers become floats and [None] becomes [NaN]. *)
Definition cast (d : Dtype) (v : Value) : Value :=
  match d, v with
  | Float64, VInt z => VFloat (inject_Z z)
  | Float64, VNone => VNaN
  | _, _ => v
  end.

Definition is_int_value (v : Value) : bool :=
  match v with VInt _ => true | _ => false end.

Definition is_str_value (v : Value) : bool :=
  match v with VStr _ => true | _ => false end.

Definition is_none_value (v : Value) : bool :=
  match v with VNone => true | _ => false end.

(** The dtype the constructors infer for a column of Python objects: ints
    give [int64]; numbers with missing cells give [float64]; an empty
    column, a column of [None] only, and a column with a string give
    [object]. *)
Definition infer_dtype (vs : list Value) : Dtype :=
  match vs with
  | [] => Object
  | _ =>
      if forallb is_int_value vs then Int64
      else if (existsb is_str_value vs || forallb is_none_value vs)%bool
           then Object
           else Float64
  end.

Definition infer_column (name : string) (vs : list Value) : Column :=
  let d := infer_dtype vs in
  mkColumn name d (map (cast d) vs).

(** The dtype of a row read across the columns of a frame. *)
Definition row_dtype (df : DataFrame) : Dtype :=
  common_dtype (map c_dtype (df_cols df)).

(** Row [i] of the frame as a Series, as [iterrows] and [iloc] build it:
    named by its label, its cells brought to the common dtype. *)
Definition df_row (df : DataFrame) (i : nat) : Series :=
  mkSeries (nth i (df_index df) VNaN)
    (map (fun c => (c_name c, cast (row_dtype df) (nth i (c_values c) VNaN)))
         (df_cols df)).

(** [df.iterrows()]: the pairs [(label, row)] in order. *)
Definition iterrows (df : DataFrame) : list (Value * Series) :=
  map (fun i => (nth i (df_index df) VNaN, df_row df i)) (seq 0 (nrows df)).

(** [df.iloc[key]] with a scalar key: an integer selects a row by position
    (negative from the end), or is out of bounds; any other scalar is
    refused. *)
Definition iloc (df : DataFrame) (key : Value) : pyres Series :=
  match key with
  | VInt z =>
      let n := Z.of_nat (nrows df) in
      if (0 <=? z) && (z <? n) then Ok (df_row df (Z.to_nat z))
      else if (- n <=? z) && (z <? 0) then Ok (df_row df (Z.to_nat (n + z)))
      else Raise (mkExn IndexError "single positional indexer is out-of-bounds")
  | _ =>
      Raise (mkExn TypeError
               "Cannot index by location index with a non-integer key")
  end.

(** [df.rename(columns=mappings)]: labels that are keys of the mapping are
    replaced, the others are kept. *)
Definition rename (df : DataFrame) (mappings : list (string * string))
  : DataFrame :=
  mkFrame (df_index df)
    (map (fun c =>
            match assoc (c_name c) mappings with
            | Some new => mkColumn new (c_dtype c) (c_values c)
            | None => c
            end)
         (df_cols df)).

(** [df.drop(columns=labels)]. *)
Definition drop_columns (df : DataFrame) (labels : list string) : DataFrame :=
  mkFrame (df_index df)
    (filter (fun c => negb (mem (c_name c) labels)) (df_cols df)).

(** [df.reset_index(drop=True)]. *)
Definition reset_index (df : DataFrame) : DataFrame :=
  mkFrame (range_index (nrows df)) (df_cols df).

Fixpoint select {A : Type} (mask : list bool) (l : list A) : list A :=
  match mask, l with
  | b :: mask', x :: l' => if b then x :: select mask' l' else select mask' l'
  | _, _ => []
  end.

(** [df[mask]] with a boolean mask over the rows. *)
Definition df_filter (df : DataFrame) (mask : list bool) : DataFrame :=
  mkFrame (select mask (df_index df))
    (map (fun c => mkColumn (c_name c) (c_dtype c) (select mask (c_values c)))
         (df_cols df)).

(** Equality of labels and keys as hashing sees it: like [==], and missing
    values match each other. *)
Definition label_eq (a b : Value) : bool :=
  ((isna a && isna b) || py_eq a b)%bool.

(** [index.isin(values)]. *)
Definition isin (index : list Value) (values : list Value) : list bool :=
  map (fun l => existsb (label_eq l) values) index.

(** A Python [for] loop whose body may raise. *)
Fixpoint for_each {A : Type} (body : A -> pyres unit) (l : list A)
  : pyres unit :=
  match l with
  | [] => Ok tt
  | x :: l' => _ <- body x ;; for_each body l'
  end.

Definition all_same_length (n : nat) (d : list (string * list Value)) : bool :=
  forallb (fun kv => Nat.eqb (List.length (snd kv)) n) d.

(** [pd.DataFrame(data)] for a dict of lists. *)
Definition frame_of_dict (d : list (string * list Value)) : pyres DataFrame :=
  match d with
  | [] => Ok empty_frame
  | (_, vs) :: _ =>
      let n := List.length vs in
      if all_same_length n d
      then Ok (mkFrame (range_index n)
                 (map (fun kv => infer_column (fst kv) (snd kv)) d))
      else Raise (mkExn ValueError "All arrays must be of the same length")
  end.

(** Labels in order of first appearance. *)
Fixpoint dedup (l : list string) : list string :=
  match l with
  | [] => []
  | x :: l' => x :: filter (fun y => negb (String.eqb y x)) (dedup l')
  end.

(** [pd.DataFrame(rows)] for a list of Series: one row per Series, labelled
    by its name; the columns are the labels of the rows in order of first
    appearance, a cell a row lacks is [NaN]. *)
Definition frame_of_series (rows : list Series) : DataFrame :=
  match rows with
  | [] => empty_frame
  | _ =>
      mkFrame (map s_name rows)
        (map (fun k =>
                infer_column k
                  (map (fun r => match assoc k (s_items r) with
                                 | Some v => v
                                 | None => VNaN
                                 end) rows))
             (dedup (flat_map s_index rows)))
  end.

(** What a frame contributes to a column of a concatenation. *)
Definition concat_part (k : string) (df : DataFrame) : list Value :=
  match find_col k (df_cols df) with
  | Some c => c_values c
  | None => repeat VNaN (nrows df)
  end.

(** The dtype a frame brings to a column of a concatenation: a frame that
    has rows but lacks the column brings missing cells, which need floats. *)
Definition concat_part_dtype (k : string) (df : DataFrame) : list Dtype :=
  match find_col k (df_cols df) with
  | Some c => [c_dtype c]
  | None => match nrows df with O => [] | S _ => [Float64] end
  end.

(** The dtype of a column of a concatenation: frames without rows do not
    count, unless no frame has rows. *)
Definition concat_dtype (k : string) (dfs : list DataFrame) : Dtype :=
  let with_rows := filter (fun df => negb (Nat.eqb (nrows df) 0)) dfs in
  match with_rows with
  | [] => common_dtype (flat_map (concat_part_dtype k) dfs)
  | _ => common_dtype (flat_map (concat_part_dtype k) with_rows)
  end.

(** [pd.concat(dfs)]: rows stacked in order, columns united in order of
    first appearance, cells a frame lacks filled with [NaN]. *)
Definition concat (dfs : list DataFrame) : DataFrame :=
  mkFrame (flat_map df_index dfs)
    (map (fun k =>
            let d := concat_dtype k dfs in
            mkColumn k d (map (cast d) (flat_map (concat_part k) dfs)))
         (dedup (flat_map columns dfs))).

(** The [.str] accessor accepts an object column whose non-null cells
    include a string, or that has no non-null cell. *)
Definition str_accessor_ok (vs : list Value) : bool :=
  match filter notna vs with
  | [] => true
  | nn => existsb is_str_value nn
  end.

(** [column.str.lower()]: strings are lower-cased, every other cell
    becomes [NaN]. *)
Definition col_str_lower (c : Column) : pyres Column :=
  if str_accessor_ok (c_values c)
  then Ok (mkColumn (c_name c) Object
             (map (fun v => match v with
                            | VStr s => VStr (str_lower s)
                            | _ => VNaN
                            end) (c_values c)))
  else Raise (mkExn AttributeError
                "Can only use .str accessor with string values!").

(** [df[key] = column] for a label the frame has. *)
Definition df_setitem (df : DataFrame) (k : string) (new : Column)
  : DataFrame :=
  mkFrame (df_index df)
    (map (fun c => if String.eqb (c_name c) k
                   then mkColumn k (c_dtype new) (c_values new)
                   else c)
         (df_cols df)).

(* ===================================================================== *)
(** ** pandas: [pd.merge(left, right, on=keys, how='inner',
        suffixes=('_a', '_b'), indicator=True)] *)
(* ===================================================================== *)

Definition dtype_name (d : Dtype) : string :=
  match d with Int64 => "int64" | Float64 => "float64" | Object => "object" end.

(** pandas refuses to join a numeric key column with an object column that
    holds strings and no integer, unless one side has no rows. *)
Definition merge_check_key (left right : DataFrame) (k : string)
  : pyres unit :=
  rk <- df_getitem right k ;;
  lk <- df_getitem left k ;;
  let one_empty :=
    (negb (Nat.eqb (nrows left) 0) && Nat.eqb (nrows right) 0
     || Nat.eqb (nrows left) 0 && negb (Nat.eqb (nrows right) 0))%bool in
  let stringlike (c : Column) :=
    (is_object_dtype (c_dtype c) && existsb is_str_value (c_values c)
     && negb (existsb is_int_value (c_values c)))%bool in
  if one_empty then Ok tt
  else if (is_numeric_dtype (c_dtype lk) && stringlike rk
           || stringlike lk && is_numeric_dtype (c_dtype rk))%bool
  then Raise (mkExn ValueError
         ("You are trying to merge on " ++ dtype_name (c_dtype lk) ++ " and "
          ++ dtype_name (c_dtype rk) ++ " columns for key '" ++ k
          ++ "'. If you wish to proceed you should use pd.concat"))
  else Ok tt.

Fixpoint nodup_labels (l : list string) : bool :=
  match l with
  | [] => true
  | x :: l' => (negb (mem x l') && nodup_labels l')%bool
  end.

(** The key cells of row [i]. *)
Definition key_cells (df : DataFrame) (on : list string) (i : nat)
  : list Value :=
  map (fun k => match find_col k (df_cols df) with
                | Some c => nth i (c_values c) VNaN
                | None => VNaN
                end) on.

Definition keys_match (ka kb : list Value) : bool :=
  forallb (fun p => label_eq (fst p) (snd p)) (combine ka kb).

(** The pairs (row of left, row of right) of the inner join, in the order
    of the left rows and, for one left row, of the right rows. *)
Definition join_pairs (left right : DataFrame) (on : list string)
  : list (nat * nat) :=
  flat_map
    (fun i =>
       map (fun j => (i, j))
           (filter (fun j => keys_match (key_cells left on i)
                                        (key_cells right on j))
                   (seq 0 (nrows right))))
    (seq 0 (nrows left)).

(** The inner join with its indicator.  It raises, in this order, when a
    key column is missing or the key dtypes do not go together, when a
    column already has a name of the indicator, when there is no key (the
    join has nothing to index: an [IndexError] in pandas 2.1), and when the
    suffixes produce a repeated label.  Otherwise the frame has the columns
    of [left] (a label that a non-key column of [right] shares gets [_a]),
    the non-key columns of [right] (with [_b] where shared) and the
    categorical column [_merge], read as objects; it has one row per joined
    pair, labelled 0, 1, ... *)
Definition pd_merge (left right : DataFrame) (on : list string)
  : pyres DataFrame :=
  _ <- for_each (merge_check_key left right) on ;;
  if (mem "_left_indicator" (columns left ++ columns right)
      || mem "_right_indicator" (columns left ++ columns right))%bool
  then Raise (mkExn ValueError
         "Cannot use `indicator=True` option when data contains a column named _left_indicator or _right_indicator")
  else if mem "_merge" (columns left ++ columns right)
  then Raise (mkExn ValueError
         "Cannot use name of an existing column for indicator column")
  else
  match on with
  | [] => Raise (mkExn IndexError "list index out of range")
  | _ =>
      let right_rest :=
        filter (fun c => negb (mem (c_name c) on)) (df_cols right) in
      let to_rename :=
        filter (fun k => mem k (map c_name right_rest)) (columns left) in
      let relabel (suffix : string) (k : string) :=
        if mem k to_rename then k ++ suffix else k in
      let llabels := map (relabel "_a") (columns left) in
      let rlabels := map (relabel "_b") (map c_name right_rest) in
      if (negb (nodup_labels llabels) || negb (nodup_labels rlabels))%bool
      then Raise (mkExn MergeError
             "Passing 'suffixes' which cause duplicate columns is not allowed.")
      else
        let pairs := join_pairs left right on in
        Ok (mkFrame (range_index (List.length pairs))
              (map (fun c => mkColumn (relabel "_a" (c_name c)) (c_dtype c)
                               (map (fun p => nth (fst p) (c_values c) VNaN)
                                    pairs))
                   (df_cols left)
               ++ map (fun c => mkColumn (relabel "_b" (c_name c)) (c_dtype c)
                                  (map (fun p => nth (snd p) (c_values c) VNaN)
                                       pairs))
                      right_rest
               ++ [mkColumn "_merge" Object
                     (map (fun _ => VStr "both") pairs)]))
  end.

(* ===================================================================== *)
(** ** [ConflictResolutionStrategy], [MergeConfig], [MergeResult] *)
(* ===================================================================== *)

Inductive ConflictResolutionStrategy : Type :=
| KEEP_NEWEST
| KEEP_OLDEST
| KEEP_SOURCE_A
| KEEP_SOURCE_B
| KEEP_MOST_COMPLETE
| COMBINE
| CUSTOM.

(** The dict [_find_conflicts] returns: field -> (value in A, value in B),
    in insertion order. *)
Definition Conflicts : Type := list (string * (Value * Value)).

Record MergeConfig : Type := mkConfig {
  key_fields : list string;
  conflict_strategy : ConflictResolutionStrategy;
  timestamp_field : option string;
  custom_resolver : option (Series -> Series -> Conflicts -> pyres Series);
  case_sensitive : bool;
  merge_similar : bool;
  similarity_threshold : Q;
  source_priority : option (list string);
  field_mappings : list (string * string);
  ignored_fields : list string
}.

(** [MergeConfig(key_fields=keys)] with the defaults of the dataclass. *)
Definition default_config (keys : list string) : MergeConfig :=
  mkConfig keys KEEP_NEWEST None None false true (9 # 10) None [] [].

(** An entry of [MergeResult.conflicts]. *)
Record ConflictReport : Type := mkReport {
  key_values : list (string * Value);
  fields : Conflicts;
  resolution : Series
}.

(** The dict [merge] stores in [MergeResult.stats]. *)
Record Stats : Type := mkStats {
  total_records : Z;
  matches_found : Z;
  conflicts_resolved : Z;
  source_a_only : Z;
  source_b_only : Z
}.

(** [stats] is [None] for the empty dict the dataclass starts with. *)
Record MergeResult : Type := mkResult {
  success : bool;
  merged_data : option DataFrame;
  conflicts : list ConflictReport;
  stats : option Stats;
  errors : list string;
  warnings : list string
}.

(** What a caller may pass as a source: a frame, a dict of columns, or an
    object of another type (given by the text of [type(data)]). *)
Inductive Source : Type :=
| SrcFrame (df : DataFrame)
| SrcDict (d : list (string * list Value))
| SrcOther (type_repr : string).

(* ===================================================================== *)
(** ** [DataMerger] *)
(* ===================================================================== *)

Definition _to_dataframe (data : Source) : pyres DataFrame :=
  match data with
  | SrcFrame df => Ok df
  | SrcDict d => frame_of_dict d
  | SrcOther t => Raise (mkExn ValueError ("Unsupported data type: " ++ t))
  end.

Definition _apply_field_mappings (df : DataFrame)
    (mappings : list (string * string)) : DataFrame :=
  rename df mappings.

Definition validate_key (df_a df_b : DataFrame) (key : string) : pyres unit :=
  if negb (mem key (columns df_a))
  then Raise (mkExn ValidationError
                ("Merge key '" ++ key ++ "' not found in source A"))
  else if negb (mem key (columns df_b))
  then Raise (mkExn ValidationError
                ("Merge key '" ++ key ++ "' not found in source B"))
  else Ok tt.

Definition _validate_merge_keys (df_a df_b : DataFrame) (config : MergeConfig)
  : pyres unit :=
  for_each (validate_key df_a df_b) (key_fields config).

(** [if df[key].dtype == object: df[key] = df[key].str.lower()]. *)
Definition lower_key (df : DataFrame) (key : string) : pyres DataFrame :=
  c <- df_getitem df key ;;
  if is_object_dtype (c_dtype c)
  then (l <- col_str_lower c ;; Ok (df_setitem df key l))
  else Ok df.

Fixpoint prepare_loop (keys : list string) (df_a df_b : DataFrame)
  : pyres (DataFrame * DataFrame) :=
  match keys with
  | [] => Ok (df_a, df_b)
  | key :: keys' =>
      df_a' <- lower_key df_a key ;;
      df_b' <- lower_key df_b key ;;
      prepare_loop keys' df_a' df_b'
  end.

Definition _prepare_merge_keys (df_a df_b : DataFrame) (config : MergeConfig)
  : pyres (DataFrame * DataFrame) :=
  if negb (case_sensitive config)
  then prepare_loop (key_fields config) df_a df_b
  else Ok (df_a, df_b).

(** An element of the list [matches] of [_find_similar_matches]. *)
Record Match : Type := mkMatch {
  m_idx_a : Value;
  m_idx_b : Value;
  m_similarity : Q
}.

(** [pd.DataFrame(matches)] for the list of match dicts. *)
Definition frame_of_matches (ms : list Match) : DataFrame :=
  match ms with
  | [] => empty_frame
  | _ =>
      mkFrame (range_index (List.length ms))
        [ infer_column "idx_a" (map m_idx_a ms);
          infer_column "idx_b" (map m_idx_b ms);
          infer_column "similarity" (map (fun m => VFloat (m_similarity m)) ms) ]
  end.

Fixpoint map_m {A B : Type} (f : A -> pyres B) (l : list A) : pyres (list B) :=
  match l with
  | [] => Ok []
  | x :: l' => y <- f x ;; ys <- map_m f l' ;; Ok (y :: ys)
  end.

(** A loop that appends to one list across its iterations. *)
Fixpoint flat_map_m {A B : Type} (f : A -> pyres (list B)) (l : list A)
  : pyres (list B) :=
  match l with
  | [] => Ok []
  | x :: l' => ys <- f x ;; zs <- flat_map_m f l' ;; Ok (ys ++ zs)%list
  end.

(** The score of one key field for a pair of rows. *)
Definition key_score (df_a : DataFrame) (row_a row_b : Series) (key : string)
  : pyres Q :=
  c <- df_getitem df_a key ;;
  if is_string_dtype (c_dtype c)
  then
    va <- s_getitem row_a key ;;
    vb <- s_getitem row_b key ;;
    Ok (fuzz_ratio (py_str va) (py_str vb) / (100 # 1))%Q
  else
    va <- s_getitem row_a key ;;
    vb <- s_getitem row_b key ;;
    Ok (if py_eq va vb then 1%Q else 0%Q).

(** [sum(scores)]. *)
Definition sum_scores (scores : list Q) : Q := fold_left Qplus scores 0%Q.

(** [sum(scores) / len(scores)]. *)
Definition average (scores : list Q) : pyres Q :=
  match scores with
  | [] => Raise (mkExn ZeroDivisionError "division by zero")
  | _ => Ok (sum_scores scores / inject_Z (Z.of_nat (List.length scores)))%Q
  end.

(** The body of the inner loop for one pair of rows. *)
Definition score_pair (df_a : DataFrame) (config : MergeConfig)
    (a b : Value * Series) : pyres (list Match) :=
  scores <- map_m (key_score df_a (snd a) (snd b)) (key_fields config) ;;
  avg_score <- average scores ;;
  if Qle_bool (similarity_threshold config) avg_score
  then Ok [mkMatch (fst a) (fst b) avg_score]
  else Ok [].

(** The list [matches] at the end of the two loops. *)
Definition similar_matches (df_a df_b : DataFrame) (config : MergeConfig)
  : pyres (list Match) :=
  flat_map_m
    (fun a => flat_map_m (score_pair df_a config a) (iterrows df_b))
    (iterrows df_a).

Definition _find_similar_matches (df_a df_b : DataFrame) (config : MergeConfig)
  : pyres DataFrame :=
  ms <- similar_matches df_a df_b config ;;
  Ok (frame_of_matches ms).

Definition _find_matches (df_a df_b : DataFrame) (config : MergeConfig)
  : pyres DataFrame :=
  if merge_similar config
  then _find_similar_matches df_a df_b config
  else pd_merge df_a df_b (key_fields config).

Definition _find_conflicts (record_a record_b : Series) : Conflicts :=
  flat_map
    (fun field =>
       if s_has record_b field
       then match assoc field (s_items record_a),
                  assoc field (s_items record_b) with
            | Some val_a, Some val_b =>
                if (negb (isna val_a) && negb (isna val_b)
                    && py_ne val_a val_b)%bool
                then [(field, (val_a, val_b))]
                else []
            | _, _ => []
            end
       else [])
    (s_index record_a).

(** Python truth of [config.timestamp_field]: a non-empty string. *)
Definition truthy (o : option string) : option string :=
  match o with
  | Some EmptyString => None
  | _ => o
  end.

(** One step of the COMBINE loop. *)
Definition combine_field (resolved : Series)
    (entry : string * (Value * Value)) : Series :=
  match entry with
  | (field, (VStr val_a, VStr val_b)) =>
      s_setitem resolved field (VStr (val_a ++ " | " ++ val_b))
  | _ => resolved
  end.

Definition _apply_resolution_strategy (record_a record_b : Series)
    (conflicts : Conflicts) (config : MergeConfig) : pyres Series :=
  let resolved := record_a in
  match conflict_strategy config with
  | KEEP_NEWEST =>
      match truthy (timestamp_field config) with
      | Some ts =>
          tb <- s_getitem record_b ts ;;
          ta <- s_getitem record_a ts ;;
          newer <- py_gt tb ta ;;
          Ok (if newer then s_update resolved record_b else resolved)
      | None => Ok resolved
      end
  | KEEP_OLDEST =>
      match truthy (timestamp_field config) with
      | Some ts =>
          tb <- s_getitem record_b ts ;;
          ta <- s_getitem record_a ts ;;
          older <- py_lt tb ta ;;
          Ok (if older then s_update resolved record_b else resolved)
      | None => Ok resolved
      end
  | KEEP_SOURCE_A => Ok resolved
  | KEEP_SOURCE_B => Ok (s_update resolved record_b)
  | KEEP_MOST_COMPLETE =>
      if s_null_count record_b <? s_null_count record_a
      then Ok (s_update resolved record_b)
      else Ok resolved
  | COMBINE => Ok (fold_left combine_field conflicts resolved)
  | CUSTOM =>
      match custom_resolver config with
      | Some resolver => resolver record_a record_b conflicts
      | None => Ok resolved
      end
  end.

(** The part of the loop body of [_resolve_conflicts] that works on the
    two records: the resolved record and, when the pair conflicts, its
    report. *)
Definition resolve_records (record_a record_b : Series) (config : MergeConfig)
  : pyres (Series * list ConflictReport) :=
  let conflicts := _find_conflicts record_a record_b in
  match conflicts with
  | [] => Ok (s_combine_first record_a record_b, [])
  | _ =>
      resolved <- _apply_resolution_strategy record_a record_b conflicts config ;;
      kv <- map_m (fun k => v <- s_getitem record_a k ;; Ok (k, v))
                  (key_fields config) ;;
      Ok (resolved, [mkReport kv conflicts resolved])
  end.

(** The body of the loop of [_resolve_conflicts] for one row of
    [matches]. *)
Definition resolve_match (df_a df_b : DataFrame) (config : MergeConfig)
    (match_row : Series) : pyres (Series * list ConflictReport) :=
  ia <- s_getitem match_row "idx_a" ;;
  record_a <- iloc df_a ia ;;
  ib <- s_getitem match_row "idx_b" ;;
  record_b <- iloc df_b ib ;;
  resolve_records record_a record_b config.

(** The loop of [_resolve_conflicts]: the reports appended to
    [result.conflicts] so far stay there when an iteration raises. *)
Fixpoint resolve_loop (df_a df_b : DataFrame) (config : MergeConfig)
    (rows : list (Value * Series))
    (reports : list ConflictReport) (resolved_data : list Series)
  : list ConflictReport * pyres (list Series) :=
  match rows with
  | [] => (reports, Ok resolved_data)
  | (_, match_row) :: rows' =>
      match resolve_match df_a df_b config match_row with
      | Raise e => (reports, Raise e)
      | Ok (resolved, new) =>
          resolve_loop df_a df_b config rows'
            (reports ++ new)%list (resolved_data ++ [resolved])%list
      end
  end.

Definition _resolve_conflicts (df_a df_b matches : DataFrame)
    (config : MergeConfig) : list ConflictReport * pyres DataFrame :=
  match resolve_loop df_a df_b config (iterrows matches) [] [] with
  | (reports, Ok resolved_data) => (reports, Ok (frame_of_series resolved_data))
  | (reports, Raise e) => (reports, Raise e)
  end.

Definition _handle_unmatched (matched_data df_a df_b matches : DataFrame)
    (config : MergeConfig) : pyres DataFrame :=
  col_a <- df_getitem matches "idx_a" ;;
  let matched_idx_a := c_values col_a in
  col_b <- df_getitem matches "idx_b" ;;
  let matched_idx_b := c_values col_b in
  let unmatched_a :=
    df_filter df_a (map negb (isin (df_index df_a) matched_idx_a)) in
  let unmatched_b :=
    df_filter df_b (map negb (isin (df_index df_b) matched_idx_b)) in
  Ok (concat [matched_data; unmatched_a; unmatched_b]).

Definition is_suffix_col (col : string) : bool :=
  (endswith col "_a" || endswith col "_b")%bool.

Definition _cleanup_merged_data (df : DataFrame) (ignored : list string)
  : DataFrame :=
  let df1 :=
    fold_left (fun d field =>
                 if mem field (columns d) then drop_columns d [field] else d)
              ignored df in
  let suffix_cols := filter is_suffix_col (columns df1) in
  let df2 := drop_columns df1 suffix_cols in
  reset_index df2.

(** The steps of [merge] up to the matches, inside the [try]. *)
Definition merge_front (source_a source_b : Source) (merge_config : MergeConfig)
  : pyres (DataFrame * DataFrame * DataFrame) :=
  df_a <- _to_dataframe source_a ;;
  df_b <- _to_dataframe source_b ;;
  let df_a := _apply_field_mappings df_a (field_mappings merge_config) in
  let df_b := _apply_field_mappings df_b (field_mappings merge_config) in
  _ <- _validate_merge_keys df_a df_b merge_config ;;
  ab <- _prepare_merge_keys df_a df_b merge_config ;;
  matches <- _find_matches (fst ab) (snd ab) merge_config ;;
  Ok (fst ab, snd ab, matches).

(** The steps of [merge] after the conflicts are resolved. *)
Definition merge_back (resolved_data df_a df_b matches : DataFrame)
    (merge_config : MergeConfig) (reports : list ConflictReport)
  : pyres (Stats * DataFrame) :=
  final_data <- _handle_unmatched resolved_data df_a df_b matches merge_config ;;
  let final_data :=
    _cleanup_merged_data final_data (ignored_fields merge_config) in
  Ok (mkStats (Z.of_nat (nrows final_data))
              (Z.of_nat (nrows matches))
              (Z.of_nat (List.length reports))
              (Z.of_nat (nrows df_a) - Z.of_nat (nrows matches))
              (Z.of_nat (nrows df_b) - Z.of_nat (nrows matches)),
      final_data).

(** The [except] branch: the result keeps the conflicts reported so far. *)
Definition failed (reports : list ConflictReport) (e : Exn) : MergeResult :=
  mkResult false None reports None [exn_msg e] [].

Definition merge (source_a source_b : Source) (merge_config : MergeConfig)
  : MergeResult :=
  match merge_front source_a source_b merge_config with
  | Raise e => failed [] e
  | Ok (df_a, df_b, matches) =>
      match _resolve_conflicts df_a df_b matches merge_config with
      | (reports, Raise e) => failed reports e
      | (reports, Ok resolved_data) =>
          match merge_back resolved_data df_a df_b matches merge_config
                           reports with
          | Raise e => failed reports e
          | Ok (st, final_data) =>
              mkResult true (Some final_data) reports (Some st) [] []
          end
      end
  end.

(* ===================================================================== *)
(** ** The matching rule in the words of the specification *)
(* ===================================================================== *)

(** The cell of a row at a label. *)
Definition cell (row : Series) (k : string) : Value :=
  match assoc k (s_items row) with
  | Some v => v
  | None => VNaN
  end.

(** Whether key [k] is string-typed, read off the column of source A. *)
Definition string_typed (df_a : DataFrame) (k : string) : bool :=
  match find_col k (df_cols df_a) with
  | Some c => is_string_dtype (c_dtype c)
  | None => false
  end.

(** Per-field similarity: the edit-distance ratio scaled to [0,1] for a
    string-typed field, exact equality scored 1 or 0 otherwise. *)
Definition spec_field_similarity (is_string : bool) (va vb : Value) : Q :=
  if is_string
  then (fuzz_ratio (py_str va) (py_str vb) / (100 # 1))%Q
  else if py_eq va vb then 1%Q else 0%Q.

(** The mean of a non-empty list of scores. *)
Definition mean (scores : list Q) : Q :=
  (sum_scores scores / inject_Z (Z.of_nat (List.length scores)))%Q.

(** The average over the key fields of the per-field similarity. *)
Definition spec_pair_similarity (df_a : DataFrame) (keys : list string)
    (row_a row_b : Series) : Q :=
  mean (map (fun k => spec_field_similarity (string_typed df_a k)
                        (cell row_a k) (cell row_b k))
            keys).

(** The matches the specification asks for: the pairs (row of A, row of B)
    whose average similarity reaches the threshold. *)
Definition spec_similar_matches (df_a df_b : DataFrame) (config : MergeConfig)
  : list Match :=
  flat_map
    (fun a =>
       flat_map
         (fun b =>
            let s := spec_pair_similarity df_a (key_fields config)
                       (snd a) (snd b) in
            if Qle_bool (similarity_threshold config) s
            then [mkMatch (fst a) (fst b) s]
            else [])
         (iterrows df_b))
    (iterrows df_a).

(** A field conflicts between two records when both have it with non-null,
    unequal values. *)
Definition conflicting (record_a record_b : Series) (field : string) : Prop :=
  exists val_a val_b,
    assoc field (s_items record_a) = Some val_a
    /\ assoc field (s_items record_b) = Some val_b
    /\ isna val_a = false /\ isna val_b = false
    /\ py_eq val_a val_b = false.

(** The fields [_find_conflicts] reports. *)
Definition conflict_fields (record_a record_b : Series) : list string :=
  map fst (_find_conflicts record_a record_b).

(** The conflict rule with key fields left out of the report. *)
Definition conflicts_exclude_keys (record_a record_b : Series)
    (keys : list string) : Prop :=
  forall field,
    In field (conflict_fields record_a record_b)
    <-> conflicting record_a record_b field /\ ~ In field keys.

(** The pair of labels a match reports. *)
Definition match_pair (m : Match) : Value * Value := (m_idx_a m, m_idx_b m).


(** The statistics add up. *)
Definition conserved (st : Stats) : Prop :=
  total_records st = matches_found st + source_a_only st + source_b_only st.

(* ===================================================================== *)
(** ** Inputs used in the examples *)
(* ===================================================================== *)

(** [MergeConfig(key_fields=keys, conflict_strategy=strategy,
      timestamp_field=ts, merge_similar=False)]. *)
Definition exact_config (keys : list string)
    (strategy : ConflictResolutionStrategy) (ts : option string)
  : MergeConfig :=
  mkConfig keys strategy ts None false false (9 # 10) None [] [].

(** [MergeConfig(key_fields=keys, similarity_threshold=threshold)]. *)
Definition fuzzy_config (keys : list string) (threshold : Q) : MergeConfig :=
  mkConfig keys KEEP_NEWEST None None false true threshold None [] [].

(** Two sources that share the key 2. *)
Definition left_ids : Source :=
  SrcDict [("id", [VInt 1; VInt 2]); ("val", [VStr "x"; VStr "y"])].
Definition right_ids : Source :=
  SrcDict [("id", [VInt 2; VInt 3]); ("val", [VStr "u"; VStr "v"])].

(** A source of two rows and a source that declares the key column and has
    no rows. *)
Definition two_rows : Source := SrcDict [("id", [VInt 1; VInt 2])].
Definition no_rows : Source := SrcDict [("id", [])].

(** A source whose rows carry their own [idx_a] and [idx_b] columns, with
    two rows of key 1, and a source with one row of key 1. *)
Definition tagged_twice : Source :=
  SrcDict [("id", [VInt 1; VInt 1]);
           ("idx_a", [VInt 0; VInt 1]);
           ("idx_b", [VInt 0; VInt 0])].
Definition one_row : Source := SrcDict [("id", [VInt 1])].

(** The same, with one row on each side and a field on which they differ;
    the left source also has a column [score_b] of its own. *)
Definition tagged_x : Source :=
  SrcDict [("id", [VInt 1]); ("val", [VStr "x"]); ("score_b", [VInt 7]);
           ("idx_a", [VInt 0]); ("idx_b", [VInt 0])].
Definition plain_y : Source :=
  SrcDict [("id", [VInt 1]); ("val", [VStr "y"])].

(** One name on the left, the same name twice on the right. *)
Definition names_a : DataFrame :=
  mkFrame [VInt 0] [mkColumn "name" Object [VStr "alice"]].
Definition names_b : DataFrame :=
  mkFrame [VInt 0; VInt 1]
    [mkColumn "name" Object [VStr "alice"; VStr "alice"]].

(** Two records whose key [name] is similar and not equal; only the right
    one has the field [extra]. *)
Definition alice_a : DataFrame :=
  mkFrame [VInt 0]
    [mkColumn "name" Object [VStr "alice"]; mkColumn "score" Int64 [VInt 1]].
Definition alicia_b : DataFrame :=
  mkFrame [VInt 0]
    [mkColumn "name" Object [VStr "alicia"]; mkColumn "score" Int64 [VInt 1];
     mkColumn "extra" Int64 [VInt 5]].

(** The records A = {id: 1, val: "x", ts: 10} and B = {id: 1, val: "y",
    ts: 20}, as rows of one-row frames. *)
Definition frame_x : DataFrame :=
  mkFrame [VInt 0]
    [mkColumn "id" Int64 [VInt 1]; mkColumn "val" Object [VStr "x"];
     mkColumn "ts" Int64 [VInt 10]].
Definition frame_y : DataFrame :=
  mkFrame [VInt 0]
    [mkColumn "id" Int64 [VInt 1]; mkColumn "val" Object [VStr "y"];
     mkColumn "ts" Int64 [VInt 20]].
Definition record_x : Series := df_row frame_x 0.
Definition record_y : Series := df_row frame_y 0.

(** The value of [val] after resolving the pair under a strategy, in exact
    mode with [timestamp_field="ts"], for given conflicts. *)
Definition resolved_val (strategy : ConflictResolutionStrategy)
    (conflicts : Conflicts) : pyres Value :=
  resolved <- _apply_resolution_strategy record_x record_y conflicts
                (exact_config ["id"] strategy (Some "ts")) ;;
  s_getitem resolved "val".

(** The same through the loop body of [_resolve_conflicts], which finds the
    conflicts itself. *)
Definition resolved_val_of_pair (strategy : ConflictResolutionStrategy)
  : pyres Value :=
  rr <- resolve_records record_x record_y
          (exact_config ["id"] strategy (Some "ts")) ;;
  s_getitem (fst rr) "val".


(* ===================================================================== *)
(** ** Notions used in the further properties *)
(* ===================================================================== *)

(** The name a column has after [df.rename(columns=mappings)]. *)
Definition mapped_label (mappings : list (string * string)) (c : string)
  : string :=
  match assoc c mappings with
  | Some new => new
  | None => c
  end.


(** The rows of a frame whose label is not among the given labels. *)
Definition unmatched_rows (df : DataFrame) (labels : list Value) : nat :=
  List.length
    (filter (fun l => negb (existsb (label_eq l) labels)) (df_index df)).

(** The shape of a result that carries data. *)
Definition complete_result (r : MergeResult) : Prop :=
  success r = true
  /\ errors r = []
  /\ exists df st,
       merged_data r = Some df
       /\ stats r = Some st
       /\ df_index df = range_index (nrows df)
       /\ total_records st = Z.of_nat (nrows df)
       /\ conflicts_resolved st = Z.of_nat (List.length (conflicts r)).

(** The shape of a result that reports a failure. *)
Definition failed_result (r : MergeResult) : Prop :=
  success r = false
  /\ merged_data r = None
  /\ stats r = None
  /\ exists msg, errors r = [msg].

(** [MergeConfig(key_fields=keys, merge_similar=False,
      ignored_fields=ignored)]. *)
Definition ignoring_config (keys ignored : list string) : MergeConfig :=
  mkConfig keys KEEP_NEWEST None None false false (9 # 10) None [] ignored.



(** What [resolved.update(other)] leaves in a cell of [resolved]. *)
Definition updated_cell (other : Series) (k : string) (v : Value) : Value :=
  match assoc k (s_items other) with
  | Some w => if notna w then w else v
  | None => v
  end.

(** [MergeConfig(key_fields=keys, conflict_strategy=strategy,
      timestamp_field=ts)]. *)
Definition strategy_config (keys : list string)
    (strategy : ConflictResolutionStrategy) (ts : option string)
  : MergeConfig :=
  mkConfig keys strategy ts None false true (9 # 10) None [] [].

(** A record with a missing value, and one that fills it. *)
Definition record_gap : Series :=
  mkSeries (VInt 0)
    [("id", VInt 1); ("val", VNaN); ("n", VInt 3); ("ts", VInt 10)].
Definition record_fill : Series :=
  mkSeries (VInt 0)
    [("id", VInt 1); ("val", VStr "v"); ("n", VInt 4); ("ts", VInt 10);
     ("more", VInt 9)].

(** Whether record B wins under a timestamp strategy, for integer
    timestamps [ts_a] of record A and [ts_b] of record B. *)
Definition b_wins (strategy : ConflictResolutionStrategy) (ts_a ts_b : Z)
  : bool :=
  match strategy with
  | KEEP_NEWEST => ts_a <? ts_b
  | _ => ts_b <? ts_a
  end.



(** What every conflict report holds: the key fields of the configuration
    in their order, and at least one conflicting field, each with two
    different non-null values. *)
Definition well_formed_report (config : MergeConfig) (r : ConflictReport)
  : Prop :=
  map fst (key_values r) = key_fields config
  /\ fields r <> []
  /\ forall field val_a val_b,
       In (field, (val_a, val_b)) (fields r) ->
       isna val_a = false /\ isna val_b = false /\ py_eq val_a val_b = false.

(** A frame of matches that pairs the first row of A with the first row
    of B. *)
Definition matches_first : DataFrame :=
  mkFrame [VInt 0]
    [mkColumn "idx_a" Int64 [VInt 0]; mkColumn "idx_b" Int64 [VInt 0]].
(* ===================================================================== *)
(** ** Facts about the library model *)
(* ===================================================================== *)

(** Steps through [x <- m ;; k] in a hypothesis [H : ... = Ok _]: the
    first computation has returned, and its equation is kept. *)
Ltac bind_ok H :=
  match type of H with
  | bind ?m _ = Ok _ =>
      let E := fresh "E" in
      destruct m eqn:E; simpl in H; [|discriminate H]
  end.

Lemma mem_In (k : string) (l : list string) : mem k l = true <-> In k l.
Proof.
  unfold mem. rewrite existsb_exists. split.
  - intros [x [Hx Heq]]. apply String.eqb_eq in Heq. now subst.
  - intros H. exists k. split; [assumption | apply String.eqb_refl].
Qed.

Lemma mem_false (k : string) (l : list string) : mem k l = false <-> ~ In k l.
Proof.
  rewrite <- mem_In. destruct (mem k l); split; congruence.
Qed.

(** *** Association lists *)

Section Assoc.
Context {A : Type}.
Variable k : string.

Lemma assoc_none (l : list (string * A)) :
  ~ In k (map fst l) -> assoc k l = None.
Proof.
  induction l as [|[k' v] l IH]; simpl; [reflexivity|].
  intros H. destruct (String.eqb k k') eqn:E.
  - apply String.eqb_eq in E. subst. tauto.
  - apply IH. tauto.
Qed.

Lemma assoc_some_in (l : list (string * A)) (v : A) :
  assoc k l = Some v -> In k (map fst l).
Proof.
  induction l as [|[k' v'] l IH]; simpl; [discriminate|].
  destruct (String.eqb k k') eqn:E.
  - apply String.eqb_eq in E. now left.
  - intros H. right. now apply IH.
Qed.

Lemma assoc_in_some (l : list (string * A)) :
  In k (map fst l) -> exists v, assoc k l = Some v.
Proof.
  induction l as [|[k' v'] l IH]; simpl; [tauto|].
  intros H. destruct (String.eqb k k') eqn:E; [now exists v'|].
  apply IH. destruct H as [H|H]; [|assumption].
  subst. rewrite String.eqb_refl in E. discriminate.
Qed.

(** Looking a key up after a map that keeps the keys and leaves the
    entries of that key alone. *)
Lemma assoc_map_other (g : string * A -> string * A)
    (l : list (string * A)) :
  (forall kv, fst (g kv) = fst kv) ->
  (forall kv, fst kv = k -> g kv = kv) ->
  assoc k (map g l) = assoc k l.
Proof.
  intros Hkey Hsame. induction l as [|[k' v'] l IH]; simpl; [reflexivity|].
  specialize (Hkey (k', v')). specialize (Hsame (k', v')).
  destruct (g (k', v')) as [k'' v''] eqn:E. simpl in Hkey. subst k''.
  destruct (String.eqb k k') eqn:Ek.
  - apply String.eqb_eq in Ek. subst k'.
    specialize (Hsame eq_refl). now injection Hsame as ->.
  - apply IH.
Qed.

Lemma assoc_tabulate (g : string -> A) (l : list string) :
  In k l -> assoc k (map (fun x => (x, g x)) l) = Some (g k).
Proof.
  induction l as [|x l IH]; simpl; [tauto|].
  intros H. destruct (String.eqb k x) eqn:E.
  - apply String.eqb_eq in E. now subst.
  - apply IH. destruct H as [H|H]; [|assumption].
    subst. rewrite String.eqb_refl in E. discriminate.
Qed.
End Assoc.

(** *** Loops that may raise *)

Section Loops.
Context {A B : Type}.

Lemma map_m_ok (f : A -> pyres B) (g : A -> B) (l : list A) :
  (forall x, In x l -> f x = Ok (g x)) -> map_m f l = Ok (map g l).
Proof.
  induction l as [|x l IH]; intros H; simpl; [reflexivity|].
  rewrite (H x (or_introl eq_refl)). simpl.
  rewrite IH by (intros y Hy; apply H; now right). reflexivity.
Qed.

Lemma flat_map_m_ok (f : A -> pyres (list B)) (g : A -> list B)
    (l : list A) :
  (forall x, In x l -> f x = Ok (g x)) ->
  flat_map_m f l = Ok (flat_map g l).
Proof.
  induction l as [|x l IH]; intros H; simpl; [reflexivity|].
  rewrite (H x (or_introl eq_refl)). simpl.
  rewrite IH by (intros y Hy; apply H; now right). reflexivity.
Qed.
End Loops.

(** *** Columns, rows and label lookup *)

Lemma range_index_length (n : nat) : List.length (range_index n) = n.
Proof. unfold range_index. now rewrite length_map, length_seq. Qed.

Lemma columns_drop_columns (df : DataFrame) (labels : list string) :
  columns (drop_columns df labels)
  = filter (fun k => negb (mem k labels)) (columns df).
Proof.
  unfold columns, drop_columns. simpl.
  induction (df_cols df) as [|c cs IH]; simpl; [reflexivity|].
  destruct (mem (c_name c) labels); simpl; now rewrite IH.
Qed.

Lemma columns_reset_index (df : DataFrame) :
  columns (reset_index df) = columns df.
Proof. reflexivity. Qed.

Lemma s_index_df_row (df : DataFrame) (i : nat) :
  s_index (df_row df i) = columns df.
Proof.
  unfold s_index, df_row, columns. simpl. rewrite map_map. reflexivity.
Qed.

Create Rewrite HintDb frames.
#[local] Hint Rewrite columns_reset_index columns_drop_columns
  s_index_df_row range_index_length : frames.

Lemma find_col_none (k : string) (cols : list Column) :
  ~ In k (map c_name cols) -> find_col k cols = None.
Proof.
  unfold find_col. induction cols as [|c cs IH]; simpl; [reflexivity|].
  intros H. destruct (String.eqb (c_name c) k) eqn:E.
  - apply String.eqb_eq in E. tauto.
  - apply IH. tauto.
Qed.

Lemma find_col_some (k : string) (cols : list Column) :
  In k (map c_name cols) -> exists c, find_col k cols = Some c.
Proof.
  unfold find_col. induction cols as [|c cs IH]; simpl; [tauto|].
  intros H. destruct (String.eqb (c_name c) k) eqn:E; [now exists c|].
  apply IH. destruct H as [H|H]; [|assumption].
  subst. rewrite String.eqb_refl in E. discriminate.
Qed.

Lemma df_getitem_missing (df : DataFrame) (k : string) :
  ~ In k (columns df) -> df_getitem df k = Raise (key_error k).
Proof.
  intros H. unfold df_getitem. now rewrite (find_col_none k (df_cols df) H).
Qed.

Lemma s_getitem_missing (s : Series) (k : string) :
  ~ In k (s_index s) -> s_getitem s k = Raise (key_error k).
Proof.
  intros H. unfold s_getitem. now rewrite (assoc_none k (s_items s) H).
Qed.

Lemma s_getitem_cell (s : Series) (k : string) :
  In k (s_index s) -> s_getitem s k = Ok (cell s k).
Proof.
  intros H. unfold s_getitem, cell.
  destruct (assoc_in_some k (s_items s) H) as [v ->]. reflexivity.
Qed.

Lemma iterrows_no_rows (df : DataFrame) : nrows df = 0%nat -> iterrows df = [].
Proof. unfold iterrows. now intros ->. Qed.

Lemma iterrows_row (df : DataFrame) (r : Value * Series) :
  In r (iterrows df) -> s_index (snd r) = columns df.
Proof.
  unfold iterrows. intros H. apply in_map_iff in H.
  destruct H as [i [<- _]]. apply s_index_df_row.
Qed.

Lemma iterrows_labels (df : DataFrame) : map fst (iterrows df) = df_index df.
Proof.
  unfold iterrows, nrows. rewrite map_map. simpl.
  apply (nth_ext _ _ VNaN VNaN).
  - now rewrite length_map, length_seq.
  - intros n Hn. rewrite length_map, length_seq in Hn.
    rewrite (nth_indep _ _ (nth 0 (df_index df) VNaN))
      by (rewrite length_map, length_seq; exact Hn).
    change (nth 0 (df_index df) VNaN)
      with ((fun i => nth i (df_index df) VNaN) 0%nat).
    rewrite map_nth. now rewrite seq_nth.
Qed.

(** *** [_cleanup_merged_data] *)

(** The columns that [_cleanup_merged_data] leaves never end in [_a] or
    [_b]. *)
Lemma cleanup_drops_suffix_columns (df : DataFrame) (ignored : list string)
    (c : string) :
  In c (columns (_cleanup_merged_data df ignored)) -> is_suffix_col c = false.
Proof.
  unfold _cleanup_merged_data.
  set (df1 := fold_left _ ignored df).
  autorewrite with frames.
  intros H. apply filter_In in H. destruct H as [Hin Hnot].
  destruct (is_suffix_col c) eqn:E; [|reflexivity].
  assert (Hmem : mem c (filter is_suffix_col (columns df1)) = true).
  { apply mem_In. apply filter_In. now split. }
  rewrite Hmem in Hnot. discriminate.
Qed.

(** *** [_validate_merge_keys] *)

Section Validation.
Variables df_a df_b : DataFrame.

(** The loop raises at the first key that a source lacks, naming that key
    and the source: A when A lacks it, else B. *)
Lemma validate_raises (keys : list string) :
  (exists k, In k keys
             /\ (~ In k (columns df_a) \/ ~ In k (columns df_b))) ->
  exists k side,
    In k keys
    /\ (side = "A" /\ ~ In k (columns df_a)
        \/ side = "B" /\ ~ In k (columns df_b))
    /\ for_each (validate_key df_a df_b) keys
       = Raise (mkExn ValidationError
                  ("Merge key '" ++ k ++ "' not found in source " ++ side)).
Proof.
  induction keys as [|key keys IH]; intros [k [Hin Hmiss]]; [destruct Hin|].
  simpl. unfold validate_key at 1.
  destruct (mem key (columns df_a)) eqn:Ea; simpl.
  - destruct (mem key (columns df_b)) eqn:Eb; simpl.
    + destruct Hin as [->|Hin].
      * apply mem_In in Ea, Eb. tauto.
      * destruct IH as [k' [side [Hk' [Hside Hrun]]]].
        { exists k. tauto. }
        exists k', side. tauto.
    + exists key, "B". apply mem_false in Eb. tauto.
  - exists key, "A". apply mem_false in Ea. tauto.
Qed.

(** When every key is a column of both frames the validation passes. *)
Lemma validate_passes (keys : list string) :
  (forall k, In k keys -> In k (columns df_a) /\ In k (columns df_b)) ->
  for_each (validate_key df_a df_b) keys = Ok tt.
Proof.
  induction keys as [|key keys IH]; intros H; [reflexivity|].
  simpl. unfold validate_key at 1.
  destruct (H key (or_introl eq_refl)) as [Ha Hb].
  apply mem_In in Ha, Hb. rewrite Ha, Hb. simpl.
  apply IH. intros k Hk. apply H. now right.
Qed.
End Validation.

(** *** The steps of [merge] before the matches *)

Lemma df_setitem_shape (df : DataFrame) (k : string) (new : Column) :
  df_index (df_setitem df k new) = df_index df
  /\ columns (df_setitem df k new) = columns df.
Proof.
  split; [reflexivity|].
  unfold columns, df_setitem. simpl. rewrite map_map.
  apply map_ext. intros c.
  destruct (String.eqb (c_name c) k) eqn:E; [|reflexivity].
  simpl. apply String.eqb_eq in E. now symmetry.
Qed.

Lemma lower_key_shape (df df' : DataFrame) (key : string) :
  lower_key df key = Ok df' ->
  df_index df' = df_index df /\ columns df' = columns df.
Proof.
  unfold lower_key. intros H. bind_ok H.
  destruct (is_object_dtype (c_dtype a)).
  - bind_ok H. injection H as <-. apply df_setitem_shape.
  - injection H as <-. now split.
Qed.

Lemma prepare_loop_shape (keys : list string) :
  forall df_a df_b df_a' df_b',
    prepare_loop keys df_a df_b = Ok (df_a', df_b') ->
    (df_index df_a' = df_index df_a /\ columns df_a' = columns df_a)
    /\ (df_index df_b' = df_index df_b /\ columns df_b' = columns df_b).
Proof.
  induction keys as [|key keys IH]; intros df_a df_b df_a' df_b' H; simpl in H.
  - injection H as <- <-. now repeat split.
  - bind_ok H. bind_ok H.
    match goal with
    | Ea : lower_key df_a key = Ok ?a, Eb : lower_key df_b key = Ok ?b |- _ =>
        apply lower_key_shape in Ea, Eb;
        destruct (IH _ _ _ _ H) as [[Hia Hca] [Hib Hcb]];
        destruct Ea as [Ea1 Ea2], Eb as [Eb1 Eb2]
    end.
    repeat split; congruence.
Qed.

(** [_prepare_merge_keys] changes neither the rows nor the column names. *)
Lemma prepare_shape (df_a df_b df_a' df_b' : DataFrame) (config : MergeConfig) :
  _prepare_merge_keys df_a df_b config = Ok (df_a', df_b') ->
  (df_index df_a' = df_index df_a /\ columns df_a' = columns df_a)
  /\ (df_index df_b' = df_index df_b /\ columns df_b' = columns df_b).
Proof.
  unfold _prepare_merge_keys.
  destruct (negb (case_sensitive config)).
  - apply prepare_loop_shape.
  - intros H. injection H as <- <-. now repeat split.
Qed.

(** What a successful [merge_front] went through. *)
Lemma merge_front_inv (source_a source_b : Source) (config : MergeConfig)
    (df_a' df_b' matches : DataFrame) :
  merge_front source_a source_b config = Ok (df_a', df_b', matches) ->
  exists df_a df_b,
    _to_dataframe source_a = Ok df_a
    /\ _to_dataframe source_b = Ok df_b
    /\ _prepare_merge_keys
         (_apply_field_mappings df_a (field_mappings config))
         (_apply_field_mappings df_b (field_mappings config)) config
       = Ok (df_a', df_b')
    /\ _find_matches df_a' df_b' config = Ok matches.
Proof.
  unfold merge_front. intros H.
  destruct (_to_dataframe source_a) as [df_a|e]; simpl in H; [|discriminate].
  destruct (_to_dataframe source_b) as [df_b|e]; simpl in H; [|discriminate].
  bind_ok H. bind_ok H. bind_ok H.
  match goal with
  | Ep : _prepare_merge_keys _ _ _ = Ok ?ab |- _ =>
      destruct ab as [pa pb]; simpl in *
  end.
  injection H as <- <- <-.
  exists df_a, df_b. now repeat split.
Qed.

(** *** The steps of [merge] after the matches *)

(** When the frame of matches has no column [idx_a], the steps after the
    matches raise [KeyError('idx_a')]: in the loop of [_resolve_conflicts]
    if there is a match, else in [_handle_unmatched]. *)
Lemma no_idx_a_column_fails (df_a df_b matches : DataFrame)
    (config : MergeConfig) :
  ~ In "idx_a" (columns matches) ->
  match _resolve_conflicts df_a df_b matches config with
  | (reports, Raise e) => reports = [] /\ e = key_error "idx_a"
  | (reports, Ok resolved_data) =>
      reports = []
      /\ merge_back resolved_data df_a df_b matches config reports
         = Raise (key_error "idx_a")
  end.
Proof.
  intros Hno. unfold _resolve_conflicts, iterrows.
  destruct (nrows matches) as [|n]; simpl.
  - unfold merge_back, _handle_unmatched.
    now rewrite (df_getitem_missing matches "idx_a" Hno).
  - unfold resolve_match.
    rewrite s_getitem_missing; [now split|].
    now autorewrite with frames.
Qed.

Lemma merge_fails_without_idx_a (source_a source_b : Source)
    (config : MergeConfig) (df_a df_b matches : DataFrame) :
  merge_front source_a source_b config = Ok (df_a, df_b, matches) ->
  ~ In "idx_a" (columns matches) ->
  merge source_a source_b config = failed [] (key_error "idx_a").
Proof.
  intros Hfront Hno. unfold merge. rewrite Hfront.
  pose proof (no_idx_a_column_fails df_a df_b matches config Hno) as H.
  destruct (_resolve_conflicts df_a df_b matches config)
    as [reports [resolved_data|e]].
  - destruct H as [-> H]. now rewrite H.
  - destruct H as [-> ->]. reflexivity.
Qed.

(** *** The frame [pd.merge] returns *)

(** A column of the joined frame is a column of the left frame, possibly
    with [_a] appended, or a column of the right frame, possibly with [_b]
    appended, or the indicator [_merge]; there is one row per joined
    pair. *)
Lemma pd_merge_shape (left right m : DataFrame) (on : list string) :
  pd_merge left right on = Ok m ->
  nrows m = List.length (join_pairs left right on)
  /\ forall k, In k (columns m) ->
       In k (columns left)
       \/ (exists c, In c (columns left) /\ k = c ++ "_a")
       \/ In k (columns right)
       \/ (exists c, In c (columns right) /\ k = c ++ "_b")
       \/ k = "_merge".
Proof.
  unfold pd_merge.
  destruct (for_each (merge_check_key left right) on) as [[]|e]; simpl;
    [|discriminate].
  destruct (mem "_left_indicator" (columns left ++ columns right)
            || mem "_right_indicator" (columns left ++ columns right))%bool;
    [discriminate|].
  destruct (mem "_merge" (columns left ++ columns right)); [discriminate|].
  destruct on as [|key on]; [discriminate|].
  set (right_rest := filter _ (df_cols right)).
  set (to_rename := filter _ (columns left)).
  match goal with
  | |- (if ?c then _ else _) = _ -> _ => destruct c; [discriminate|]
  end.
  intros H. injection H as <-. split.
  - unfold nrows. simpl. apply range_index_length.
  - intros k. unfold columns at 1. simpl.
    rewrite !map_app, !in_app_iff, !map_map. simpl.
    intros [H|[H|[H|[]]]].
    + apply in_map_iff in H. destruct H as [c [<- Hc]].
      assert (Hin : In (c_name c) (columns left)) by now apply in_map.
      destruct (mem (c_name c) to_rename); [|now left].
      right; left. now exists (c_name c).
    + apply in_map_iff in H. destruct H as [c [<- Hc]].
      assert (Hin : In (c_name c) (columns right)).
      { apply in_map. unfold right_rest in Hc. now apply filter_In in Hc. }
      destruct (mem (c_name c) to_rename); [|now right; right; left].
      right; right; right; left. now exists (c_name c).
    + right; right; right; right. now symmetry.
Qed.

Lemma append_a_is_idx_a (c : string) : c ++ "_a" = "idx_a" -> c = "idx".
Proof.
  intros H.
  repeat (destruct c as [|? c]; simpl in H;
            [first [discriminate | reflexivity]
            | first [discriminate | injection H as -> H]]).
Qed.

Lemma append_b_is_not_idx_a (c : string) : c ++ "_b" <> "idx_a".
Proof.
  intros H.
  repeat (destruct c as [|? c]; simpl in H;
            [discriminate | first [discriminate | injection H as -> H]]).
Qed.

(** Joining two frames that have no column [idx_a], the left one no
    column [idx], gives a frame without a column [idx_a]. *)
Lemma pd_merge_no_idx_a (left right m : DataFrame) (on : list string) :
  pd_merge left right on = Ok m ->
  ~ In "idx_a" (columns left) ->
  ~ In "idx" (columns left) ->
  ~ In "idx_a" (columns right) ->
  ~ In "idx_a" (columns m).
Proof.
  intros Hm Hl Hidx Hr Hin.
  destruct (pd_merge_shape left right m on Hm) as [_ Hcols].
  destruct (Hcols _ Hin) as [H|[[c [Hc H]]|[H|[[c [Hc H]]|H]]]].
  - tauto.
  - symmetry in H. apply append_a_is_idx_a in H. subst. tauto.
  - tauto.
  - symmetry in H. now apply append_b_is_not_idx_a in H.
  - discriminate.
Qed.

(** The joined pairs are the pairs of row positions whose key cells all
    compare equal. *)
Lemma join_pairs_spec (left right : DataFrame) (on : list string) (i j : nat) :
  In (i, j) (join_pairs left right on)
  <-> (i < nrows left)%nat /\ (j < nrows right)%nat
      /\ keys_match (key_cells left on i) (key_cells right on j) = true.
Proof.
  unfold join_pairs. rewrite in_flat_map. split.
  - intros [i' [Hi H]]. apply in_map_iff in H.
    destruct H as [j' [Heq Hj]]. injection Heq as -> ->.
    apply filter_In in Hj. destruct Hj as [Hj Hmatch].
    apply in_seq in Hi, Hj. repeat split; [lia | lia | assumption].
  - intros [Hi [Hj Hmatch]]. exists i. split; [apply in_seq; lia|].
    apply in_map. apply filter_In. split; [apply in_seq; lia | assumption].
Qed.




(** *** Fuzzy matching against a source without rows *)

Lemma similar_matches_no_rows (df_a df_b : DataFrame) (config : MergeConfig) :
  nrows df_b = 0%nat -> similar_matches df_a df_b config = Ok [].
Proof.
  intros H. unfold similar_matches. rewrite (iterrows_no_rows df_b H).
  induction (iterrows df_a) as [|a rows IH]; simpl in *; [reflexivity|].
  now rewrite IH.
Qed.

(** *** Records: conflicts and filling *)

Lemma insert_sorted_in (k x : string) (l : list string) :
  In x (insert_sorted k l) <-> x = k \/ In x l.
Proof.
  induction l as [|h t IH]; simpl.
  - intuition.
  - destruct (String.leb k h); simpl; [intuition|].
    rewrite IH. intuition.
Qed.

Lemma sort_strings_in (x : string) (l : list string) :
  In x (sort_strings l) <-> In x l.
Proof.
  unfold sort_strings. induction l as [|h t IH]; simpl; [tauto|].
  rewrite insert_sorted_in, IH. intuition.
Qed.

Lemma index_union_in (x : string) (l1 l2 : list string) :
  In x (index_union l1 l2) <-> In x l1 \/ In x l2.
Proof.
  unfold index_union.
  destruct l1 as [|a l1]; [destruct l2; simpl; tauto|].
  destruct l2 as [|b l2]; [simpl; tauto|].
  remember (a :: l1) as la eqn:Hla. remember (b :: l2) as lb eqn:Hlb.
  clear Hla Hlb a b l1 l2.
  destruct (list_eqb la lb) eqn:E.
  - split; [tauto|]. intros [H|H]; [assumption|].
    unfold list_eqb in E. apply andb_prop in E. destruct E as [Hlen Hall].
    apply Nat.eqb_eq in Hlen. rewrite forallb_forall in Hall.
    apply (In_nth _ _ EmptyString) in H. destruct H as [n [Hn Hx]].
    assert (Hc : In (nth n la EmptyString, x) (combine la lb)).
    { rewrite <- Hx. rewrite <- combine_nth by assumption.
      apply nth_In. rewrite length_combine. lia. }
    specialize (Hall _ Hc). cbn [fst snd] in Hall.
    apply String.eqb_eq in Hall.
    rewrite <- Hall. apply nth_In. lia.
  - rewrite sort_strings_in, in_app_iff, filter_In.
    split.
    + intros [H|[H _]]; tauto.
    + intros [H|H]; [now left|].
      destruct (mem x la) eqn:Em.
      * left. now apply mem_In.
      * right. split; [assumption | reflexivity].
Qed.

Section Records.
Variables record_a record_b : Series.
Variable field : string.

(** [_find_conflicts] reports exactly the fields that both records have
    with non-null, unequal values. *)
Lemma find_conflicts_spec :
  In field (conflict_fields record_a record_b)
  <-> conflicting record_a record_b field.
Proof.
  unfold conflict_fields, _find_conflicts, conflicting.
  rewrite in_map_iff. split.
  - intros [[f [va vb]] [Hf Hin]]. simpl in Hf. subst f.
    apply in_flat_map in Hin. destruct Hin as [f [_ Hin]].
    destruct (s_has record_b f); [|destruct Hin].
    destruct (assoc f (s_items record_a)) as [val_a|] eqn:Ea;
      [|destruct Hin].
    destruct (assoc f (s_items record_b)) as [val_b|] eqn:Eb;
      [|destruct Hin].
    destruct (negb (isna val_a) && negb (isna val_b)
              && py_ne val_a val_b)%bool eqn:E; [|destruct Hin].
    destruct Hin as [Hin|[]]. injection Hin as -> -> ->.
    apply andb_prop in E. destruct E as [E Hne].
    apply andb_prop in E. destruct E as [Hna Hnb].
    exists va, vb. unfold py_ne in Hne.
    repeat split; try assumption; now apply negb_true_iff.
  - intros [va [vb [Ea [Eb [Hna [Hnb Hne]]]]]].
    exists (field, (va, vb)). split; [reflexivity|].
    apply in_flat_map. exists field. split.
    + apply (assoc_some_in _ _ _ Ea).
    + assert (Hhas : s_has record_b field = true).
      { apply mem_In. apply (assoc_some_in _ _ _ Eb). }
      rewrite Hhas, Ea, Eb. unfold py_ne. rewrite Hna, Hnb, Hne. now left.
Qed.

Lemma s_update_other :
  assoc field (s_items record_b) = None ->
  assoc field (s_items (s_update record_a record_b))
  = assoc field (s_items record_a).
Proof.
  intros Hb. unfold s_update. simpl. apply assoc_map_other.
  - intros [k v]. simpl.
    destruct (assoc k (s_items record_b)) as [w|]; [|reflexivity].
    now destruct (notna w).
  - intros [k v] Hk. simpl in *. subst k. now rewrite Hb.
Qed.

Lemma s_setitem_other (k : string) (v : Value) :
  field <> k ->
  assoc field (s_items (s_setitem record_a k v))
  = assoc field (s_items record_a).
Proof.
  intros Hne. unfold s_setitem. simpl. apply assoc_map_other.
  - intros [k' v']. simpl. now destruct (String.eqb k' k).
  - intros [k' v'] Hk. simpl in *. subst k'.
    destruct (String.eqb field k) eqn:E; [|reflexivity].
    apply String.eqb_eq in E. contradiction.
Qed.

Lemma combine_first_lookup :
  In field (s_index record_a) \/ In field (s_index record_b) ->
  assoc field (s_items (s_combine_first record_a record_b))
  = Some (combine_first_cell record_a record_b field).
Proof.
  intros H. unfold s_combine_first. simpl.
  apply (assoc_tabulate field (combine_first_cell record_a record_b)).
  now apply index_union_in.
Qed.
End Records.

Lemma combine_other (conflicts : Conflicts) (field : string) :
  ~ In field (map fst conflicts) ->
  forall resolved,
    assoc field (s_items (fold_left combine_field conflicts resolved))
    = assoc field (s_items resolved).
Proof.
  induction conflicts as [|[k [va vb]] cs IH]; intros Hno resolved; simpl;
    [reflexivity|].
  simpl in Hno. rewrite IH by tauto.
  destruct va; try reflexivity. destruct vb; try reflexivity.
  apply s_setitem_other. intros ->. tauto.
Qed.

(** Under every strategy but CUSTOM, the resolution leaves a field alone
    that record B lacks and that is not among the conflicts. *)
Lemma resolution_keeps_a_only (record_a record_b resolved : Series)
    (conflicts : Conflicts) (config : MergeConfig) (field : string) :
  conflict_strategy config <> CUSTOM ->
  assoc field (s_items record_b) = None ->
  ~ In field (map fst conflicts) ->
  _apply_resolution_strategy record_a record_b conflicts config = Ok resolved ->
  assoc field (s_items resolved) = assoc field (s_items record_a).
Proof.
  intros Hstrategy Hb Hno. unfold _apply_resolution_strategy.
  destruct (conflict_strategy config); try contradiction.
  - destruct (truthy (timestamp_field config)) as [ts|]; intros H.
    + do 3 bind_ok H. injection H as <-.
      match goal with
      | |- context [if ?b then _ else _] => destruct b
      end; [now apply s_update_other | reflexivity].
    + now injection H as <-.
  - destruct (truthy (timestamp_field config)) as [ts|]; intros H.
    + do 3 bind_ok H. injection H as <-.
      match goal with
      | |- context [if ?b then _ else _] => destruct b
      end; [now apply s_update_other | reflexivity].
    + now injection H as <-.
  - intros H. now injection H as <-.
  - intros H. injection H as <-. now apply s_update_other.
  - destruct (s_null_count record_b <? s_null_count record_a);
      intros H; injection H as <-; [now apply s_update_other | reflexivity].
  - intros H. injection H as <-. now apply combine_other.
Qed.

(** *** Scoring pairs of rows *)

Lemma average_mean (scores : list Q) :
  scores <> [] -> average scores = Ok (mean scores).
Proof.
  destruct scores; [congruence | reflexivity].
Qed.

Section Scoring.
Variables df_a df_b : DataFrame.
Variable config : MergeConfig.

(** The score of a key that both rows and the left frame have is the
    per-field similarity of the specification. *)
Lemma key_score_spec (row_a row_b : Series) (key : string) :
  In key (columns df_a) ->
  In key (s_index row_a) ->
  In key (s_index row_b) ->
  key_score df_a row_a row_b key
  = Ok (spec_field_similarity (string_typed df_a key)
          (cell row_a key) (cell row_b key)).
Proof.
  intros Hc Ha Hb. unfold key_score, string_typed, df_getitem.
  destruct (find_col_some key (df_cols df_a) Hc) as [c ->]. simpl.
  rewrite (s_getitem_cell row_a key Ha), (s_getitem_cell row_b key Hb).
  unfold spec_field_similarity.
  destruct (is_string_dtype (c_dtype c)); reflexivity.
Qed.


Hypothesis keys_nonempty : key_fields config <> [].
Hypothesis keys_present :
  forall k, In k (key_fields config) ->
            In k (columns df_a) /\ In k (columns df_b).

(** With at least one key, all of them columns of both frames, the two
    loops report the pairs the specification asks for. *)
Lemma similar_matches_spec :
  similar_matches df_a df_b config
  = Ok (spec_similar_matches df_a df_b config).
Proof.
  unfold similar_matches, spec_similar_matches.
  apply flat_map_m_ok. intros a Ha.
  apply flat_map_m_ok. intros b Hb.
  unfold score_pair.
  rewrite (map_m_ok _
             (fun k => spec_field_similarity (string_typed df_a k)
                         (cell (snd a) k) (cell (snd b) k))).
  - simpl. rewrite average_mean.
    + simpl.
      fold (spec_pair_similarity df_a (key_fields config) (snd a) (snd b)).
      now destruct (Qle_bool _ _).
    + destruct (key_fields config); [congruence | discriminate].
  - intros k Hk. destruct (keys_present k Hk) as [Hka Hkb].
    apply key_score_spec; [assumption | |].
    + now rewrite (iterrows_row df_a a Ha).
    + now rewrite (iterrows_row df_b b Hb).
Qed.
End Scoring.

(** *** The range of the scores *)

Lemma lcs_len_le (xs ys : list ascii) :
  (lcs_len xs ys <= List.length xs)%nat /\ (lcs_len xs ys <= List.length ys)%nat.
Proof.
  revert ys. induction xs as [|x xs IHx]; intros ys; [simpl; lia|].
  induction ys as [|y ys IHy]; [simpl; lia|].
  change (lcs_len (x :: xs) (y :: ys))
    with (if Ascii.eqb x y then S (lcs_len xs ys)
          else Nat.max (lcs_len xs (y :: ys)) (lcs_len (x :: xs) ys)).
  destruct (Ascii.eqb x y).
  - destruct (IHx ys). simpl. lia.
  - destruct (IHx (y :: ys)). simpl in *. lia.
Qed.

Lemma length_list_ascii (s : string) :
  List.length (list_ascii_of_string s) = String.length s.
Proof. induction s; simpl; congruence. Qed.

Lemma fuzz_ratio_range (s1 s2 : string) :
  (0 <= fuzz_ratio s1 s2 <= 100 # 1)%Q.
Proof.
  unfold fuzz_ratio.
  destruct (String.length s1 + String.length s2)%nat as [|n] eqn:El.
  - split; unfold Qle; simpl; lia.
  - pose proof (lcs_len_le (list_ascii_of_string s1) (list_ascii_of_string s2))
      as [H1 H2].
    rewrite !length_list_ascii in *.
    assert (Hp : Z.pos (Pos.of_nat (S n)) = Z.succ (Z.of_nat n))
      by (rewrite <- Pos.of_nat_succ; apply Zpos_P_of_succ_nat).
    split; unfold Qle; cbn [Qnum Qden]; rewrite Hp; lia.
Qed.

Lemma spec_field_similarity_range (is_string : bool) (va vb : Value) :
  (0 <= spec_field_similarity is_string va vb <= 1)%Q.
Proof.
  unfold spec_field_similarity. destruct is_string.
  - destruct (fuzz_ratio_range (py_str va) (py_str vb)) as [Hlo Hhi]. split.
    + apply Qle_shift_div_l; [reflexivity|]. now rewrite Qmult_0_l.
    + apply Qle_shift_div_r; [reflexivity|]. now rewrite Qmult_1_l.
  - destruct (py_eq va vb); split; unfold Qle; simpl; lia.
Qed.

(** *** Each pair is reported once *)

Section Pairs.
Variable df_a : DataFrame.
Variable config : MergeConfig.



End Pairs.

(* ===================================================================== *)
(** ** The claims *)
(* ===================================================================== *)

(** C1.  In exact mode the matches are the inner join on [key_fields], and
    the merge is meant to succeed.  It fails instead: [pd.merge] returns a
    frame whose columns are those of the sources (suffixed where they
    overlap) and [_merge], while [_resolve_conflicts] and
    [_handle_unmatched] read [idx_a] and [idx_b] from it, columns that only
    [_find_similar_matches] produces.  So for all sources without a column
    [idx_a], the first also without a column [idx], an exact merge returns
    [success = false] and no data; when the steps up to the matching go
    through, the matches have one row per pair of rows with equal keys and
    the error is [KeyError('idx_a')]. *)
Theorem exact_merge_fails_after_matching
    (source_a source_b : Source) (merge_config : MergeConfig)
    (df_a df_b : DataFrame) :
  merge_similar merge_config = false ->
  _to_dataframe source_a = Ok df_a ->
  _to_dataframe source_b = Ok df_b ->
  ~ In "idx_a" (columns (_apply_field_mappings df_a
                           (field_mappings merge_config))) ->
  ~ In "idx" (columns (_apply_field_mappings df_a
                         (field_mappings merge_config))) ->
  ~ In "idx_a" (columns (_apply_field_mappings df_b
                           (field_mappings merge_config))) ->
  success (merge source_a source_b merge_config) = false
  /\ merged_data (merge source_a source_b merge_config) = None
  /\ (forall a b m,
        merge_front source_a source_b merge_config = Ok (a, b, m) ->
        nrows m = List.length (join_pairs a b (key_fields merge_config))
        /\ (forall i j,
              In (i, j) (join_pairs a b (key_fields merge_config))
              <-> (i < nrows a)%nat /\ (j < nrows b)%nat
                  /\ keys_match (key_cells a (key_fields merge_config) i)
                                (key_cells b (key_fields merge_config) j)
                     = true)
        /\ errors (merge source_a source_b merge_config) = ["'idx_a'"]).
Proof.
  intros Hexact Ha Hb Hna Hidx Hnb.
  destruct (merge_front source_a source_b merge_config)
    as [[[a b] m]|e] eqn:Hfront.
  - destruct (merge_front_inv _ _ _ _ _ _ Hfront)
      as [df_a0 [df_b0 [Ha0 [Hb0 [Hprep Hfind]]]]].
    rewrite Ha in Ha0. injection Ha0 as <-.
    rewrite Hb in Hb0. injection Hb0 as <-.
    destruct (prepare_shape _ _ _ _ _ Hprep) as [[_ Hca] [_ Hcb]].
    unfold _find_matches in Hfind. rewrite Hexact in Hfind.
    assert (Hno : ~ In "idx_a" (columns m)).
    { apply (pd_merge_no_idx_a _ _ _ _ Hfind); congruence. }
    rewrite (merge_fails_without_idx_a _ _ _ _ _ _ Hfront Hno).
    split; [reflexivity|]. split; [reflexivity|].
    intros a' b' m' H. injection H as <- <- <-.
    split; [now apply (pd_merge_shape _ _ _ _ Hfind)|].
    split; [intros i j; apply join_pairs_spec | reflexivity].
  - unfold merge. rewrite Hfront. repeat split; discriminate.
Qed.

(** Two sources that share the key 2: the matching finds the one pair, and
    the merge fails. *)
Lemma exact_merge_fails_after_matching_witness :
  success (merge left_ids right_ids (exact_config ["id"] KEEP_NEWEST None))
  = false
  /\ merged_data (merge left_ids right_ids
                    (exact_config ["id"] KEEP_NEWEST None)) = None
  /\ (forall a b m,
        merge_front left_ids right_ids (exact_config ["id"] KEEP_NEWEST None)
        = Ok (a, b, m) ->
        nrows m = List.length (join_pairs a b ["id"])
        /\ (forall i j,
              In (i, j) (join_pairs a b ["id"])
              <-> (i < nrows a)%nat /\ (j < nrows b)%nat
                  /\ keys_match (key_cells a ["id"] i) (key_cells b ["id"] j)
                     = true)
        /\ errors (merge left_ids right_ids
                     (exact_config ["id"] KEEP_NEWEST None)) = ["'idx_a'"]).
Proof.
  apply (exact_merge_fails_after_matching left_ids right_ids
           (exact_config ["id"] KEEP_NEWEST None) _ _ eq_refl eq_refl eq_refl);
    simpl; intros H; repeat (destruct H as [H|H]; [discriminate|]); exact H.
Defined.

(** The run of that merge. *)
Lemma exact_merge_run :
  merge left_ids right_ids (exact_config ["id"] KEEP_NEWEST None)
  = mkResult false None [] None ["'idx_a'"] []
  /\ exists a b m,
       merge_front left_ids right_ids (exact_config ["id"] KEEP_NEWEST None)
       = Ok (a, b, m)
       /\ join_pairs a b ["id"] = [(1%nat, 0%nat)]
       /\ columns m = ["id"; "val_a"; "val_b"; "_merge"].
Proof.
  split; [reflexivity|].
  do 3 eexists. split; [reflexivity|]. split; reflexivity.
Qed.

(** C2.  Merging against a source without rows is meant to succeed and to
    return the other source.  With the default fuzzy matching it fails
    instead, whatever the other source is: no pair is scored, the frame of
    matches is [pd.DataFrame([])], which has no column [idx_a], and
    [_handle_unmatched] raises [KeyError('idx_a')] when it reads
    [matches['idx_a']].  So [merge] returns [success = false] and no data,
    and the error is ['idx_a'] whenever the steps before the matching
    went through. *)
Theorem merge_against_no_rows_fails
    (source_a source_b : Source) (merge_config : MergeConfig)
    (df_b : DataFrame) :
  _to_dataframe source_b = Ok df_b ->
  nrows df_b = 0%nat ->
  merge_similar merge_config = true ->
  success (merge source_a source_b merge_config) = false
  /\ merged_data (merge source_a source_b merge_config) = None
  /\ (forall a b m,
        merge_front source_a source_b merge_config = Ok (a, b, m) ->
        errors (merge source_a source_b merge_config) = ["'idx_a'"]).
Proof.
  intros Hb Hrows Hfuzzy.
  destruct (merge_front source_a source_b merge_config)
    as [[[a b] m]|e] eqn:Hfront.
  - destruct (merge_front_inv _ _ _ _ _ _ Hfront)
      as [df_a [df_b0 [_ [Hb0 [Hprep Hfind]]]]].
    rewrite Hb in Hb0. injection Hb0 as <-.
    destruct (prepare_shape _ _ _ _ _ Hprep) as [_ [Hindex _]].
    unfold _find_matches in Hfind. rewrite Hfuzzy in Hfind.
    unfold _find_similar_matches in Hfind.
    rewrite similar_matches_no_rows in Hfind
      by (unfold nrows; rewrite Hindex; exact Hrows).
    simpl in Hfind. injection Hfind as <-.
    rewrite (merge_fails_without_idx_a _ _ _ _ _ _ Hfront) by (simpl; tauto).
    repeat split.
  - unfold merge. rewrite Hfront. repeat split; discriminate.
Qed.

(** Two rows merged against none, with the default configuration. *)
Lemma merge_against_no_rows_fails_witness :
  success (merge two_rows no_rows (default_config ["id"])) = false
  /\ merged_data (merge two_rows no_rows (default_config ["id"])) = None
  /\ (forall a b m,
        merge_front two_rows no_rows (default_config ["id"]) = Ok (a, b, m) ->
        errors (merge two_rows no_rows (default_config ["id"])) = ["'idx_a'"]).
Proof.
  apply (merge_against_no_rows_fails two_rows no_rows (default_config ["id"])
           (mkFrame [] [mkColumn "id" Object []]));
    reflexivity.
Defined.

(** The same merge by exact matching fails in the same way. *)
Lemma merge_against_no_rows_exact :
  merge two_rows no_rows (exact_config ["id"] KEEP_NEWEST None)
  = mkResult false None [] None ["'idx_a'"] [].
Proof. reflexivity. Qed.

(** C3.  The statistics of a successful merge are meant to add up:
    [total_records = matches_found + source_a_only + source_b_only].
    [merge] computes the two "only" counts as [len(df) - len(matches)], so
    they are wrong as soon as one record takes part in two matches.  Here
    two rows of A match the one row of B: the merge succeeds with
    [total_records = 2], [matches_found = 2], [source_a_only = 0] and
    [source_b_only = -1], and the counts do not add up. *)
Theorem stats_not_conserved_on_shared_match :
  let r := merge tagged_twice one_row (exact_config ["id"] KEEP_NEWEST None) in
  success r = true
  /\ stats r = Some (mkStats 2 2 0 0 (-1))
  /\ forall st, stats r = Some st -> ~ conserved st.
Proof.
  cbv zeta. split; [reflexivity|]. split; [reflexivity|].
  intros st Hst. vm_compute in Hst. injection Hst as <-.
  unfold conserved. simpl. lia.
Qed.




(** C5, as stated, fails on two counts.  The records below are matched by
    their key [name] ("alice" and "alicia" are similar enough), and the
    key is reported as a conflict: key fields are not left out.  And the
    field [extra], which only record B has, is not in the record resolved
    under KEEP_SOURCE_B. *)
Lemma key_conflict_reported_and_b_field_dropped :
  let record_a := df_row alice_a 0 in
  let record_b := df_row alicia_b 0 in
  (exists s, similar_matches alice_a alicia_b (fuzzy_config ["name"] (7 # 10))
             = Ok [mkMatch (VInt 0) (VInt 0) s])
  /\ ~ conflicts_exclude_keys record_a record_b ["name"]
  /\ assoc "extra" (s_items record_a) = None
  /\ assoc "extra" (s_items record_b) = Some (VInt 5)
  /\ exists resolved reports,
       resolve_records record_a record_b
         (mkConfig ["name"] KEEP_SOURCE_B None None false true (7 # 10)
                   None [] [])
       = Ok (resolved, reports)
       /\ assoc "extra" (s_items resolved) = None.
Proof.
  cbv zeta. split; [eexists; reflexivity|]. split.
  - intros H. destruct (H "name") as [Hname _].
    destruct Hname as [_ Hkey]; [now left | apply Hkey; now left].
  - split; [reflexivity|]. split; [reflexivity|].
    do 2 eexists. split; reflexivity.
Qed.

(** C5, amended.  For a pair of records, a field is reported as
    conflicting iff both records have it and both values are non-null and
    unequal, key fields included; a field that only one of the records has
    is never a conflict.  A field that only record A has is carried into
    the merged record with A's value under every strategy but CUSTOM; a
    field that only record B has is carried in with B's value when the
    pair has no conflict. *)
Theorem conflicts_and_fill
    (record_a record_b : Series) (merge_config : MergeConfig) :
  (forall field,
      In field (conflict_fields record_a record_b)
      <-> conflicting record_a record_b field)
  /\ (forall field,
        assoc field (s_items record_a) = None
        \/ assoc field (s_items record_b) = None ->
        ~ In field (conflict_fields record_a record_b))
  /\ (forall field val_a resolved reports,
        assoc field (s_items record_a) = Some val_a ->
        assoc field (s_items record_b) = None ->
        conflict_strategy merge_config <> CUSTOM ->
        resolve_records record_a record_b merge_config
        = Ok (resolved, reports) ->
        assoc field (s_items resolved) = Some val_a)
  /\ (forall field val_b resolved reports,
        assoc field (s_items record_a) = None ->
        assoc field (s_items record_b) = Some val_b ->
        conflict_fields record_a record_b = [] ->
        resolve_records record_a record_b merge_config
        = Ok (resolved, reports) ->
        assoc field (s_items resolved) = Some val_b).
Proof.
  split; [apply find_conflicts_spec|]. split; [|split].
  - intros field Hone Hin. apply find_conflicts_spec in Hin.
    destruct Hin as [va [vb [Ea [Eb _]]]]. destruct Hone; congruence.
  - intros field val_a resolved reports Ea Eb Hstrategy.
    unfold resolve_records.
    destruct (_find_conflicts record_a record_b) as [|c cs] eqn:Ec.
    + intros H. injection H as <- _.
      rewrite combine_first_lookup
        by (left; apply (assoc_some_in _ _ _ Ea)).
      unfold combine_first_cell. now rewrite Ea, Eb.
    + destruct (_apply_resolution_strategy record_a record_b (c :: cs)
                  merge_config) as [r|e] eqn:Er; simpl; [|discriminate].
      destruct (map_m _ (key_fields merge_config)) as [kv|e]; simpl;
        [|discriminate].
      intros H. injection H as <- _. rewrite <- Ea.
      apply (resolution_keeps_a_only record_a record_b r (c :: cs) merge_config
               field Hstrategy Eb); [|exact Er].
      rewrite <- Ec. intros Hin.
      apply (find_conflicts_spec record_a record_b field) in Hin.
      destruct Hin as [va [vb [_ [Eb' _]]]]. congruence.
  - intros field val_b resolved reports Ea Eb Hnone.
    unfold resolve_records. unfold conflict_fields in Hnone.
    apply map_eq_nil in Hnone. rewrite Hnone.
    intros H. injection H as <- _.
    rewrite combine_first_lookup
      by (right; apply (assoc_some_in _ _ _ Eb)).
    unfold combine_first_cell. now rewrite Ea, Eb.
Qed.

(** The records for "alice" and "alicia": [name] conflicts and [extra],
    which one record has, does not.  With the record that has [extra] on
    the left, it is kept under KEEP_SOURCE_B; and when a record agrees
    with {id: 1, val: "x", ts: 10} the field [note] it adds is carried
    in. *)
Lemma conflicts_and_fill_witness :
  (In "name" (conflict_fields (df_row alice_a 0) (df_row alicia_b 0))
   <-> conflicting (df_row alice_a 0) (df_row alicia_b 0) "name")
  /\ ~ In "extra" (conflict_fields (df_row alice_a 0) (df_row alicia_b 0))
  /\ (exists resolved reports,
        resolve_records (df_row alicia_b 0) (df_row alice_a 0)
          (exact_config ["name"] KEEP_SOURCE_B None)
        = Ok (resolved, reports)
        /\ assoc "extra" (s_items resolved) = Some (VInt 5))
  /\ (exists resolved reports,
        resolve_records record_x
          (mkSeries (VInt 0) [("id", VInt 1); ("note", VStr "n")])
          (exact_config ["id"] KEEP_NEWEST None)
        = Ok (resolved, reports)
        /\ assoc "note" (s_items resolved) = Some (VStr "n")).
Proof.
  split; [|split; [|split]].
  - apply (conflicts_and_fill (df_row alice_a 0) (df_row alicia_b 0)
             (fuzzy_config ["name"] (7 # 10))).
  - apply (conflicts_and_fill (df_row alice_a 0) (df_row alicia_b 0)
             (fuzzy_config ["name"] (7 # 10))).
    now left.
  - do 2 eexists. split; [reflexivity|].
    destruct (conflicts_and_fill (df_row alicia_b 0) (df_row alice_a 0)
                (exact_config ["name"] KEEP_SOURCE_B None))
      as [_ [_ [Ha _]]].
    eapply Ha; [reflexivity | reflexivity | discriminate | reflexivity].
  - do 2 eexists. split; [reflexivity|].
    destruct (conflicts_and_fill record_x
                (mkSeries (VInt 0) [("id", VInt 1); ("note", VStr "n")])
                (exact_config ["id"] KEEP_NEWEST None))
      as [_ [_ [_ Hb]]].
    eapply Hb; reflexivity.
Defined.

(** C6.  For the matched records A = {id: 1, val: "x", ts: 10} and
    B = {id: 1, val: "y", ts: 20}, with [timestamp_field = "ts"] and exact
    mode, the resolved value of [val] is "y" under KEEP_NEWEST, "x" under
    KEEP_OLDEST, "x" under KEEP_SOURCE_A, "y" under KEEP_SOURCE_B and
    "x | y" under COMBINE.  This holds of [_apply_resolution_strategy] both
    when the conflicts passed to it are the single field [val] and when
    they are what [_find_conflicts] reports for the pair (which lists [ts]
    as well), and so of the loop body of [_resolve_conflicts]. *)
Theorem strategy_correctness :
  Forall
    (fun conflicts =>
       resolved_val KEEP_NEWEST conflicts = Ok (VStr "y")
       /\ resolved_val KEEP_OLDEST conflicts = Ok (VStr "x")
       /\ resolved_val KEEP_SOURCE_A conflicts = Ok (VStr "x")
       /\ resolved_val KEEP_SOURCE_B conflicts = Ok (VStr "y")
       /\ resolved_val COMBINE conflicts = Ok (VStr "x | y"))
    [ [("val", (VStr "x", VStr "y"))];
      _find_conflicts record_x record_y ]
  /\ resolved_val_of_pair KEEP_NEWEST = Ok (VStr "y")
  /\ resolved_val_of_pair KEEP_OLDEST = Ok (VStr "x")
  /\ resolved_val_of_pair KEEP_SOURCE_A = Ok (VStr "x")
  /\ resolved_val_of_pair KEEP_SOURCE_B = Ok (VStr "y")
  /\ resolved_val_of_pair COMBINE = Ok (VStr "x | y").
Proof.
  split; [repeat constructor | repeat split].
Qed.

(** The records of C6 as [iloc] reads them, and their conflicts. *)
Lemma strategy_records :
  iloc frame_x (VInt 0)
  = Ok (mkSeries (VInt 0) [("id", VInt 1); ("val", VStr "x"); ("ts", VInt 10)])
  /\ iloc frame_y (VInt 0)
     = Ok (mkSeries (VInt 0)
             [("id", VInt 1); ("val", VStr "y"); ("ts", VInt 20)])
  /\ _find_conflicts record_x record_y
     = [("val", (VStr "x", VStr "y")); ("ts", (VInt 10, VInt 20))].
Proof. repeat split. Qed.



(** The boundary on that pair: a match at the thresholds 8/11 and 0.72,
    none at 0.73. *)
Lemma threshold_boundary_example :
  (spec_pair_similarity alice_a ["name"] (df_row alice_a 0) (df_row alicia_b 0)
   == 8 # 11)%Q
  /\ map match_pair
       (spec_similar_matches alice_a alicia_b (fuzzy_config ["name"] (8 # 11)))
     = [(VInt 0, VInt 0)]
  /\ map match_pair
       (spec_similar_matches alice_a alicia_b (fuzzy_config ["name"] (72 # 100)))
     = [(VInt 0, VInt 0)]
  /\ spec_similar_matches alice_a alicia_b (fuzzy_config ["name"] (73 # 100))
     = [].
Proof.
  repeat split.
Qed.

(** In fuzzy mode the merge itself stops after the matching: a row of the
    frame of matches mixes the integer columns [idx_a] and [idx_b] with the
    float column [similarity], so [iterrows] yields floats and
    [df_a.iloc[match['idx_a']]] is refused. *)
Lemma fuzzy_merge_stops_at_iloc :
  merge (SrcFrame alice_a) (SrcFrame alicia_b) (fuzzy_config ["name"] (7 # 10))
  = mkResult false None [] None
      ["Cannot index by location index with a non-integer key"] [].
Proof. reflexivity. Qed.

(** C8.  If a field of [key_fields] is absent from either field-mapped
    source, [merge] returns [success = false] with no merged data, and its
    error is the message of a [ValidationError] that names the missing
    field and the side, "source A" or "source B", it is missing from. *)
Theorem missing_key_is_rejected
    (source_a source_b : Source) (merge_config : MergeConfig)
    (df_a df_b : DataFrame) :
  _to_dataframe source_a = Ok df_a ->
  _to_dataframe source_b = Ok df_b ->
  (exists k,
      In k (key_fields merge_config)
      /\ (~ In k (columns (_apply_field_mappings df_a
                             (field_mappings merge_config)))
          \/ ~ In k (columns (_apply_field_mappings df_b
                                (field_mappings merge_config))))) ->
  exists k side,
    In k (key_fields merge_config)
    /\ (side = "A"
        /\ ~ In k (columns (_apply_field_mappings df_a
                              (field_mappings merge_config)))
        \/ side = "B"
           /\ ~ In k (columns (_apply_field_mappings df_b
                                 (field_mappings merge_config))))
    /\ merge_front source_a source_b merge_config
       = Raise (mkExn ValidationError
                  ("Merge key '" ++ k ++ "' not found in source " ++ side))
    /\ merge source_a source_b merge_config
       = mkResult false None [] None
           ["Merge key '" ++ k ++ "' not found in source " ++ side] [].
Proof.
  intros Ha Hb Hmiss.
  destruct (validate_raises _ _ _ Hmiss) as [k [side [Hin [Hside Hrun]]]].
  exists k, side. split; [assumption|]. split; [assumption|].
  assert (Hfront : merge_front source_a source_b merge_config
                   = Raise (mkExn ValidationError
                       ("Merge key '" ++ k ++ "' not found in source " ++ side))).
  { unfold merge_front. rewrite Ha, Hb. simpl.
    unfold _validate_merge_keys. rewrite Hrun. reflexivity. }
  split; [assumption|].
  unfold merge. rewrite Hfront. reflexivity.
Qed.

(** Merging on a key neither source has: the error names the key and
    source A. *)
Lemma missing_key_is_rejected_witness :
  exists k side,
    In k ["missing_col"]
    /\ (side = "A" /\ ~ In k ["id"; "val"] \/ side = "B" /\ ~ In k ["id"; "val"])
    /\ merge_front left_ids right_ids (fuzzy_config ["missing_col"] (9 # 10))
       = Raise (mkExn ValidationError
                  ("Merge key '" ++ k ++ "' not found in source " ++ side))
    /\ merge left_ids right_ids (fuzzy_config ["missing_col"] (9 # 10))
       = mkResult false None [] None
           ["Merge key '" ++ k ++ "' not found in source " ++ side] [].
Proof.
  apply (missing_key_is_rejected left_ids right_ids
           (fuzzy_config ["missing_col"] (9 # 10)) _ _ eq_refl eq_refl).
  exists "missing_col". split; [now left|].
  left. simpl. intros [H|[H|[]]]; discriminate.
Defined.

(** C9, as stated, fails: KEEP_NEWEST or KEEP_OLDEST without a
    [timestamp_field], and CUSTOM without a [custom_resolver], are not
    rejected.  The validation passes, and the merges below succeed, report
    the conflict on [val], and keep the value of source A. *)
Lemma unusable_strategy_is_accepted :
  Forall
    (fun strategy =>
       let config := exact_config ["id"] strategy None in
       let r := merge tagged_x plain_y config in
       _validate_merge_keys frame_x frame_y config = Ok tt
       /\ success r = true
       /\ map fields (conflicts r) = [[("val", (VStr "x", VStr "y"))]]
       /\ (exists df, merged_data r = Some df
                      /\ df_getitem df "val"
                         = Ok (mkColumn "val" Object [VStr "x"])))
    [KEEP_NEWEST; KEEP_OLDEST; CUSTOM].
Proof.
  repeat constructor; eexists; split; reflexivity.
Qed.

(** C9, amended.  A configuration with CUSTOM and no [custom_resolver], or
    with KEEP_NEWEST or KEEP_OLDEST and no [timestamp_field], is not
    rejected: the validation step looks at [key_fields] only and passes
    whenever every key is a column of both frames, and the resolution of a
    conflicting pair returns record A unchanged. *)
Theorem unusable_strategy_keeps_record_a (merge_config : MergeConfig) :
  (conflict_strategy merge_config = CUSTOM
   /\ custom_resolver merge_config = None)
  \/ ((conflict_strategy merge_config = KEEP_NEWEST
       \/ conflict_strategy merge_config = KEEP_OLDEST)
      /\ timestamp_field merge_config = None) ->
  (forall df_a df_b,
      (forall k, In k (key_fields merge_config) ->
                 In k (columns df_a) /\ In k (columns df_b)) ->
      _validate_merge_keys df_a df_b merge_config = Ok tt)
  /\ (forall record_a record_b conflicts,
        _apply_resolution_strategy record_a record_b conflicts merge_config
        = Ok record_a).
Proof.
  intros H. split.
  - intros df_a df_b Hkeys. now apply validate_passes.
  - intros record_a record_b conflicts. unfold _apply_resolution_strategy.
    destruct H as [[-> ->]|[[->| ->] ->]]; reflexivity.
Qed.

(** CUSTOM without a resolver on the records A = {id: 1, val: "x", ts: 10}
    and B = {id: 1, val: "y", ts: 20}. *)
Lemma unusable_strategy_keeps_record_a_witness :
  _validate_merge_keys frame_x frame_y (exact_config ["id"] CUSTOM None) = Ok tt
  /\ _apply_resolution_strategy record_x record_y
       (_find_conflicts record_x record_y) (exact_config ["id"] CUSTOM None)
     = Ok record_x.
Proof.
  destruct (unusable_strategy_keeps_record_a (exact_config ["id"] CUSTOM None))
    as [Hvalid Hkeep].
  - left. split; reflexivity.
  - split.
    + apply Hvalid. intros k [<-|[]]. split; simpl; tauto.
    + apply Hkeep.
Defined.

(** C10.  In the data of every successful merge no column name ends in
    [_a] or [_b]: the cleanup drops every such column, whether the join
    introduced it or the caller supplied it. *)
Theorem merged_data_has_no_suffix_columns
    (source_a source_b : Source) (merge_config : MergeConfig) :
  success (merge source_a source_b merge_config) = true ->
  exists df,
    merged_data (merge source_a source_b merge_config) = Some df
    /\ forall c, In c (columns df) ->
         endswith c "_a" = false /\ endswith c "_b" = false.
Proof.
  unfold merge.
  destruct (merge_front source_a source_b merge_config)
    as [[[df_a df_b] matches]|e]; [|discriminate].
  destruct (_resolve_conflicts df_a df_b matches merge_config)
    as [reports [resolved_data|e]]; [|discriminate].
  unfold merge_back.
  destruct (_handle_unmatched resolved_data df_a df_b matches merge_config)
    as [final|e]; [|discriminate].
  simpl. intros _. eexists. split; [reflexivity|].
  intros c Hc. apply cleanup_drops_suffix_columns in Hc.
  unfold is_suffix_col in Hc. now apply orb_false_iff in Hc.
Qed.

(** A successful merge whose left source has columns [score_b], [idx_a]
    and [idx_b] of its own: none of them is in the merged data. *)
Lemma merged_data_has_no_suffix_columns_witness :
  success (merge tagged_x plain_y (exact_config ["id"] KEEP_NEWEST None)) = true
  /\ exists df,
       merged_data (merge tagged_x plain_y
                      (exact_config ["id"] KEEP_NEWEST None)) = Some df
       /\ forall c, In c (columns df) ->
            endswith c "_a" = false /\ endswith c "_b" = false.
Proof.
  split; [reflexivity|].
  apply (merged_data_has_no_suffix_columns tagged_x plain_y
           (exact_config ["id"] KEEP_NEWEST None)).
  reflexivity.
Defined.

(* ===================================================================== *)
(** ** Further properties of the merger *)
(* ===================================================================== *)

(** *** A fuzzy merge cannot get past its matches *)












(** *** The result of [merge] *)

(** X2.  A merge is all or nothing.  Either the result has
    [success = True], no error, the merged data and the statistics, where
    the rows of the data are labelled 0, 1, ..., [total_records] is their
    number and [conflicts_resolved] is the number of conflict reports; or
    it has [success = False], exactly one error message, no data and no
    statistics.  No warning is ever recorded. *)
Theorem merge_all_or_nothing
    (source_a source_b : Source) (merge_config : MergeConfig) :
  warnings (merge source_a source_b merge_config) = []
  /\ (complete_result (merge source_a source_b merge_config)
      \/ failed_result (merge source_a source_b merge_config)).
Proof.
  unfold merge.
  destruct (merge_front source_a source_b merge_config)
    as [[[a b] m]|e]; [|split; [reflexivity | right; repeat split; now eexists]].
  destruct (_resolve_conflicts a b m merge_config)
    as [reports [resolved_data|e]];
    [|split; [reflexivity | right; repeat split; now eexists]].
  unfold merge_back.
  destruct (_handle_unmatched resolved_data a b m merge_config)
    as [final|e]; cbn [bind];
    [|split; [reflexivity | right; repeat split; now eexists]].
  split; [reflexivity|]. left. split; [reflexivity|]. split; [reflexivity|].
  do 2 eexists. cbn [merged_data stats total_records conflicts_resolved
                     conflicts].
  repeat split.
  unfold _cleanup_merged_data, reset_index, nrows at 2. cbn [df_index].
  now rewrite range_index_length.
Qed.

(** X3.  A source that is neither a frame nor a dict makes the merge fail
    with the message [Unsupported data type: <type>], and so does a dict
    whose columns differ in length, with the message of [pd.DataFrame].
    Source A is converted first, and both conversions precede the check of
    the keys: the error is the same whatever the configuration is. *)
Theorem unsupported_source_is_rejected
    (source_a source_b : Source) (merge_config : MergeConfig) :
  (forall e, _to_dataframe source_a = Raise e ->
             merge source_a source_b merge_config = failed [] e)
  /\ (forall df_a e,
        _to_dataframe source_a = Ok df_a ->
        _to_dataframe source_b = Raise e ->
        merge source_a source_b merge_config = failed [] e)
  /\ (forall t, _to_dataframe (SrcOther t)
                = Raise (mkExn ValueError ("Unsupported data type: " ++ t)))
  /\ (forall d, frame_of_dict d = Ok empty_frame
                \/ (exists df, _to_dataframe (SrcDict d) = Ok df
                               /\ columns df = map fst d
                               /\ Forall (fun kv => List.length (snd kv)
                                                    = nrows df) d)
                \/ _to_dataframe (SrcDict d)
                   = Raise (mkExn ValueError
                              "All arrays must be of the same length")).
Proof.
  split; [|split; [|split]].
  - intros e H. unfold merge, merge_front. now rewrite H.
  - intros df_a e Ha Hb. unfold merge, merge_front. now rewrite Ha, Hb.
  - reflexivity.
  - intros d. destruct d as [|[k vs] d]; [now left|]. right.
    cbn [_to_dataframe frame_of_dict].
    destruct (all_same_length (List.length vs) ((k, vs) :: d)) eqn:E;
      [left | now right].
    eexists. split; [reflexivity|]. split.
    + unfold columns. cbn [df_cols]. rewrite map_map. reflexivity.
    + unfold nrows. cbn [df_index]. rewrite range_index_length.
      unfold all_same_length in E. rewrite forallb_forall in E.
      apply Forall_forall. intros kv Hkv. now apply Nat.eqb_eq, E.
Qed.

(** A list passed as source A, and a ragged dict passed as source B. *)
Lemma unsupported_source_is_rejected_witness :
  merge (SrcOther "<class 'list'>") one_row (default_config ["id"])
  = failed [] (mkExn ValueError "Unsupported data type: <class 'list'>")
  /\ merge one_row (SrcDict [("id", [VInt 1]); ("val", [])])
       (default_config ["id"])
     = failed [] (mkExn ValueError "All arrays must be of the same length").
Proof.
  split.
  - apply (unsupported_source_is_rejected (SrcOther "<class 'list'>") one_row
             (default_config ["id"])).
    reflexivity.
  - eapply (unsupported_source_is_rejected one_row
              (SrcDict [("id", [VInt 1]); ("val", [])])
              (default_config ["id"])); reflexivity.
Defined.

(** *** [_cleanup_merged_data] *)

Lemma mem_cons (c f : string) (l : list string) :
  mem c (f :: l) = (String.eqb c f || mem c l)%bool.
Proof. reflexivity. Qed.

Lemma filter_filter {A : Type} (p q : A -> bool) (l : list A) :
  filter p (filter q l) = filter (fun x => (q x && p x)%bool) l.
Proof.
  induction l as [|x l IH]; simpl; [reflexivity|].
  destruct (q x); simpl; [destruct (p x)|]; now rewrite IH.
Qed.

Lemma filter_all {A : Type} (p : A -> bool) (l : list A) :
  (forall x, In x l -> p x = true) -> filter p l = l.
Proof.
  induction l as [|x l IH]; intros H; simpl; [reflexivity|].
  rewrite (H x (or_introl eq_refl)). f_equal. apply IH.
  intros y Hy. apply H. now right.
Qed.

(** The loop over [ignored_fields] drops the columns of those names. *)
Lemma drop_ignored_cols (ignored : list string) :
  forall df,
    df_index (fold_left (fun d field =>
                           if mem field (columns d)
                           then drop_columns d [field] else d) ignored df)
    = df_index df
    /\ df_cols (fold_left (fun d field =>
                             if mem field (columns d)
                             then drop_columns d [field] else d) ignored df)
       = filter (fun c => negb (mem (c_name c) ignored)) (df_cols df).
Proof.
  induction ignored as [|f ignored IH]; intros df; simpl.
  - split; [reflexivity|]. symmetry. now apply filter_all.
  - destruct (mem f (columns df)) eqn:E.
    + destruct (IH (drop_columns df [f])) as [-> ->]. split; [reflexivity|].
      cbn [drop_columns df_cols]. rewrite filter_filter.
      apply filter_ext. intros c. cbn [mem existsb].
      rewrite orb_false_r. rewrite negb_orb. reflexivity.
    + destruct (IH df) as [-> ->]. split; [reflexivity|].
      apply filter_ext_in. intros c Hc. cbn [mem existsb].
      fold (mem (c_name c) ignored).
      destruct (String.eqb (c_name c) f) eqn:Ec; [|reflexivity].
      apply String.eqb_eq in Ec. apply mem_false in E. exfalso. apply E.
      rewrite <- Ec. unfold columns. now apply in_map.
Qed.

(** The frame [_cleanup_merged_data] returns: the rows relabelled, the
    columns that are neither ignored nor suffixed. *)
Lemma cleanup_frame (df : DataFrame) (ignored : list string) :
  _cleanup_merged_data df ignored
  = mkFrame (range_index (nrows df))
      (filter (fun c => (negb (mem (c_name c) ignored)
                         && negb (is_suffix_col (c_name c)))%bool)
              (df_cols df)).
Proof.
  unfold _cleanup_merged_data.
  destruct (drop_ignored_cols ignored df) as [Hindex Hcols].
  set (df1 := fold_left _ ignored df) in *.
  unfold reset_index, drop_columns, nrows. cbn [df_index df_cols].
  rewrite Hindex. f_equal. rewrite Hcols, filter_filter.
  apply filter_ext_in. intros c Hc.
  destruct (mem (c_name c) ignored) eqn:Ei; [reflexivity|]. cbn [negb andb].
  f_equal.
  destruct (is_suffix_col (c_name c)) eqn:Es.
  - apply mem_In. apply filter_In. split; [|exact Es].
    unfold columns. rewrite Hcols. apply in_map. apply filter_In.
    split; [exact Hc | now rewrite Ei].
  - apply mem_false. intros H. apply filter_In in H. destruct H as [_ H].
    congruence.
Qed.

Lemma cleanup_column_in (df : DataFrame) (ignored : list string)
    (col : Column) :
  In col (df_cols (_cleanup_merged_data df ignored))
  <-> In col (df_cols df) /\ ~ In (c_name col) ignored
      /\ is_suffix_col (c_name col) = false.
Proof.
  rewrite cleanup_frame. cbn [df_cols].
  rewrite filter_In, andb_true_iff, !negb_true_iff, mem_false. tauto.
Qed.

Lemma cleanup_label_in (df : DataFrame) (ignored : list string) (c : string) :
  In c (columns (_cleanup_merged_data df ignored))
  <-> In c (columns df) /\ ~ In c ignored /\ is_suffix_col c = false.
Proof.
  unfold columns. rewrite !in_map_iff. split.
  - intros [col [<- H]]. apply cleanup_column_in in H.
    destruct H as [H1 [H2 H3]]. split; [|now split]. now exists col.
  - intros [[col [<- H1]] [H2 H3]]. exists col. split; [reflexivity|].
    now apply cleanup_column_in.
Qed.

(** X4.  [_cleanup_merged_data] invents nothing and keeps the rows: its
    columns are exactly the columns of its input that are not in
    [ignored_fields] and do not end in [_a] or [_b], with their dtype and
    cells; the number of rows is unchanged and the rows are relabelled
    0, 1, ... *)
Theorem cleanup_keeps_other_columns (df : DataFrame) (ignored : list string) :
  (forall c,
      In c (columns (_cleanup_merged_data df ignored))
      <-> In c (columns df) /\ ~ In c ignored /\ is_suffix_col c = false)
  /\ (forall col,
        In col (df_cols (_cleanup_merged_data df ignored))
        <-> In col (df_cols df) /\ ~ In (c_name col) ignored
            /\ is_suffix_col (c_name col) = false)
  /\ nrows (_cleanup_merged_data df ignored) = nrows df
  /\ df_index (_cleanup_merged_data df ignored) = range_index (nrows df).
Proof.
  split; [apply cleanup_label_in|]. split; [apply cleanup_column_in|].
  rewrite cleanup_frame. split; [|reflexivity].
  unfold nrows. cbn [df_index]. apply range_index_length.
Qed.

(** X5.  A field listed in [ignored_fields] is in no record of the data of
    a successful merge. *)
Theorem ignored_fields_never_leak
    (source_a source_b : Source) (merge_config : MergeConfig) :
  success (merge source_a source_b merge_config) = true ->
  exists df,
    merged_data (merge source_a source_b merge_config) = Some df
    /\ forall c, In c (ignored_fields merge_config) -> ~ In c (columns df).
Proof.
  unfold merge.
  destruct (merge_front source_a source_b merge_config)
    as [[[a b] m]|e]; [|discriminate].
  destruct (_resolve_conflicts a b m merge_config)
    as [reports [resolved_data|e]]; [|discriminate].
  unfold merge_back.
  destruct (_handle_unmatched resolved_data a b m merge_config)
    as [final|e]; [|discriminate].
  simpl. intros _. eexists. split; [reflexivity|].
  intros c Hc Hin. apply cleanup_label_in in Hin. tauto.
Qed.

(** A successful merge that ignores [val]: the data keeps [id] only. *)
Lemma ignored_fields_never_leak_witness :
  success (merge tagged_x plain_y (ignoring_config ["id"] ["val"])) = true
  /\ exists df,
       merged_data (merge tagged_x plain_y (ignoring_config ["id"] ["val"]))
       = Some df
       /\ forall c, In c ["val"] -> ~ In c (columns df).
Proof.
  split; [reflexivity|].
  apply (ignored_fields_never_leak tagged_x plain_y
           (ignoring_config ["id"] ["val"])).
  reflexivity.
Defined.

(** *** [_apply_field_mappings] and [_validate_merge_keys] *)

Lemma columns_rename (df : DataFrame) (mappings : list (string * string)) :
  columns (rename df mappings) = map (mapped_label mappings) (columns df).
Proof.
  unfold columns, rename, mapped_label. cbn [df_cols]. rewrite !map_map.
  apply map_ext. intros c. now destruct (assoc (c_name c) mappings).
Qed.

Lemma validate_iff (df_a df_b : DataFrame) (keys : list string) :
  for_each (validate_key df_a df_b) keys = Ok tt
  <-> forall k, In k keys -> In k (columns df_a) /\ In k (columns df_b).
Proof.
  split; [|apply validate_passes].
  induction keys as [|key keys IH]; intros H k Hk; [destruct Hk|].
  simpl in H. unfold validate_key at 1 in H.
  destruct (mem key (columns df_a)) eqn:Ea; simpl in H; [|discriminate].
  destruct (mem key (columns df_b)) eqn:Eb; simpl in H; [|discriminate].
  destruct Hk as [<-|Hk]; [|now apply IH].
  split; now apply mem_In.
Qed.

(** X6.  The field mappings rename columns and touch nothing else: the
    rows, the order of the columns, their dtypes and their cells stay, and
    each column gets the name the mapping gives it (its own when the
    mapping has none).  The keys are then checked against the mapped
    names: the validation passes iff every key is the mapped name of a
    column of source A and of a column of source B. *)
Theorem keys_are_checked_after_mapping
    (df_a df_b : DataFrame) (merge_config : MergeConfig) :
  let mapped df := _apply_field_mappings df (field_mappings merge_config) in
  (forall df,
      df_index (mapped df) = df_index df
      /\ columns (mapped df)
         = map (mapped_label (field_mappings merge_config)) (columns df)
      /\ map c_dtype (df_cols (mapped df)) = map c_dtype (df_cols df)
      /\ map c_values (df_cols (mapped df)) = map c_values (df_cols df))
  /\ (_validate_merge_keys (mapped df_a) (mapped df_b) merge_config = Ok tt
      <-> forall k, In k (key_fields merge_config) ->
            (exists c, In c (columns df_a)
                       /\ mapped_label (field_mappings merge_config) c = k)
            /\ (exists c, In c (columns df_b)
                          /\ mapped_label (field_mappings merge_config) c = k)).
Proof.
  cbv zeta. split.
  - intros df. unfold _apply_field_mappings.
    split; [reflexivity|]. split; [apply columns_rename|].
    unfold rename. cbn [df_cols]. rewrite !map_map.
    split; apply map_ext; intros c;
      now destruct (assoc (c_name c) (field_mappings merge_config)).
  - unfold _validate_merge_keys, _apply_field_mappings.
    rewrite validate_iff, !columns_rename.
    split; intros H k Hk; destruct (H k Hk) as [Ha Hb].
    + apply in_map_iff in Ha, Hb.
      destruct Ha as [ca [Ea Ha]], Hb as [cb [Eb Hb]].
      split; [now exists ca | now exists cb].
    + destruct Ha as [ca [Ha Ea]], Hb as [cb [Hb Eb]].
      split; apply in_map_iff; [now exists ca | now exists cb].
Qed.

(** *** [_prepare_merge_keys] *)







Section LowerKey.
Variables df df' : DataFrame.
Variable key : string.
Hypothesis lowered : lower_key df key = Ok df'.




End LowerKey.




(** *** [_find_conflicts] and [_apply_resolution_strategy] *)

Lemma py_eq_refl (v : Value) : isna v = false -> py_eq v v = true.
Proof.
  destruct v; simpl; try discriminate; intros _.
  - apply Qeq_bool_iff. reflexivity.
  - apply Qeq_bool_iff. reflexivity.
  - apply String.eqb_refl.
Qed.

Lemma Qeq_bool_sym (x y : Q) : Qeq_bool x y = Qeq_bool y x.
Proof.
  destruct (Qeq_bool x y) eqn:E1, (Qeq_bool y x) eqn:E2; try reflexivity.
  - apply Qeq_bool_iff in E1. symmetry in E1. apply Qeq_bool_iff in E1.
    congruence.
  - apply Qeq_bool_iff in E2. symmetry in E2. apply Qeq_bool_iff in E2.
    congruence.
Qed.

Lemma py_eq_sym (a b : Value) : py_eq a b = py_eq b a.
Proof.
  destruct a, b; simpl; try reflexivity; try apply Qeq_bool_sym.
  apply String.eqb_sym.
Qed.

Lemma conflicting_sym (record_a record_b : Series) (field : string) :
  conflicting record_a record_b field -> conflicting record_b record_a field.
Proof.
  intros [va [vb [Ea [Eb [Ha [Hb Hne]]]]]]. exists vb, va.
  rewrite py_eq_sym. tauto.
Qed.

(** The values a reported conflict holds are the cells of the two
    records. *)
Lemma find_conflicts_values (record_a record_b : Series) (field : string)
    (val_a val_b : Value) :
  In (field, (val_a, val_b)) (_find_conflicts record_a record_b) ->
  assoc field (s_items record_a) = Some val_a
  /\ assoc field (s_items record_b) = Some val_b
  /\ isna val_a = false /\ isna val_b = false /\ py_eq val_a val_b = false.
Proof.
  unfold _find_conflicts. intros H. apply in_flat_map in H.
  destruct H as [f [_ H]].
  destruct (s_has record_b f); [|destruct H].
  destruct (assoc f (s_items record_a)) as [va|] eqn:Ea; [|destruct H].
  destruct (assoc f (s_items record_b)) as [vb|] eqn:Eb; [|destruct H].
  destruct (negb (isna va) && negb (isna vb) && py_ne va vb)%bool eqn:E;
    [|destruct H].
  destruct H as [H|[]]. injection H as -> -> ->.
  apply andb_prop in E. destruct E as [E Hne].
  apply andb_prop in E. destruct E as [Hna Hnb].
  unfold py_ne in Hne.
  repeat split; try assumption; now apply negb_true_iff.
Qed.

Lemma no_conflict_fields (record_a record_b : Series) :
  (forall field, ~ conflicting record_a record_b field) ->
  _find_conflicts record_a record_b = [].
Proof.
  intros H. destruct (_find_conflicts record_a record_b) as [|[f v] cs] eqn:E;
    [reflexivity|].
  exfalso. apply (H f). apply find_conflicts_spec.
  unfold conflict_fields. rewrite E. now left.
Qed.

(** X8.  [_find_conflicts] reports, in the order of the fields of record A
    and each with A's value first and B's second, the fields on which the
    two records hold different non-null values.  The same fields are
    reported when the records are swapped, and a record has no conflict
    with itself. *)
Theorem conflicts_are_symmetric (record_a record_b : Series) :
  (forall field val_a val_b,
      In (field, (val_a, val_b)) (_find_conflicts record_a record_b) ->
      assoc field (s_items record_a) = Some val_a
      /\ assoc field (s_items record_b) = Some val_b
      /\ isna val_a = false /\ isna val_b = false
      /\ py_eq val_a val_b = false)
  /\ (forall field,
        In field (conflict_fields record_a record_b)
        <-> In field (conflict_fields record_b record_a))
  /\ _find_conflicts record_a record_a = [].
Proof.
  split; [apply find_conflicts_values|]. split.
  - intros field. rewrite !find_conflicts_spec.
    split; apply conflicting_sym.
  - apply no_conflict_fields. intros field [va [vb [Ea [Eb [Ha [_ Hne]]]]]].
    rewrite Ea in Eb. injection Eb as <-.
    rewrite (py_eq_refl va Ha) in Hne. discriminate.
Qed.

Lemma assoc_update (resolved other : Series) (field : string) :
  assoc field (s_items (s_update resolved other))
  = option_map (updated_cell other field)
      (assoc field (s_items resolved)).
Proof.
  unfold s_update, updated_cell. cbn [s_items].
  induction (s_items resolved) as [|[k v] items IH]; simpl; [reflexivity|].
  destruct (assoc k (s_items other)) as [w|] eqn:Ew;
    [destruct (notna w) eqn:En|]; simpl;
    (destruct (String.eqb field k) eqn:E;
     [apply String.eqb_eq in E; subst k; simpl; now rewrite Ew, ?En
     | exact IH]).
Qed.

Lemma s_index_update (resolved other : Series) :
  s_index (s_update resolved other) = s_index resolved.
Proof.
  unfold s_index, s_update. cbn [s_items]. rewrite map_map.
  apply map_ext. intros [k v]. simpl.
  destruct (assoc k (s_items other)) as [w|]; [|reflexivity].
  now destruct (notna w).
Qed.

Lemma s_index_setitem (s : Series) (k : string) (v : Value) :
  s_index (s_setitem s k v) = s_index s.
Proof.
  unfold s_index, s_setitem. cbn [s_items]. rewrite map_map.
  apply map_ext. intros [k' v']. simpl. now destruct (String.eqb k' k).
Qed.

Lemma s_index_combine (conflicts : Conflicts) :
  forall resolved,
    s_index (fold_left combine_field conflicts resolved) = s_index resolved
    /\ s_name (fold_left combine_field conflicts resolved) = s_name resolved.
Proof.
  induction conflicts as [|[k [va vb]] cs IH]; intros resolved;
    cbn [fold_left]; [now split|].
  destruct (IH (combine_field resolved (k, (va, vb)))) as [-> ->].
  destruct va; try (now split). destruct vb; try (now split).
  split; [apply s_index_setitem | reflexivity].
Qed.

(** After an update from another record no field conflicts with it. *)
Lemma update_agrees (resolved other : Series) :
  _find_conflicts (s_update resolved other) other = [].
Proof.
  apply no_conflict_fields. intros field [va [vb [Ea [Eb [Ha [Hb Hne]]]]]].
  rewrite assoc_update in Ea. unfold updated_cell in Ea. rewrite Eb in Ea.
  unfold notna in Ea. rewrite Hb in Ea. cbn [negb] in Ea.
  destruct (assoc field (s_items resolved)); simpl in Ea; [|discriminate].
  injection Ea as <-. rewrite (py_eq_refl vb Hb) in Hne. discriminate.
Qed.

(** X9.  Under every strategy but CUSTOM the resolved record has exactly
    the fields of record A, in A's order, and A's name: the resolution
    never adds a field that only record B has and never drops one. *)
Theorem resolution_keeps_fields_of_a
    (record_a record_b resolved : Series) (conflicts : Conflicts)
    (merge_config : MergeConfig) :
  conflict_strategy merge_config <> CUSTOM ->
  _apply_resolution_strategy record_a record_b conflicts merge_config
  = Ok resolved ->
  s_index resolved = s_index record_a /\ s_name resolved = s_name record_a.
Proof.
  intros Hstrategy. unfold _apply_resolution_strategy.
  destruct (conflict_strategy merge_config); try contradiction.
  - destruct (truthy (timestamp_field merge_config)) as [ts|]; intros H.
    + do 3 bind_ok H. injection H as <-.
      match goal with
      | |- context [if ?c then _ else _] => destruct c
      end; split; try reflexivity. apply s_index_update.
    + injection H as <-. now split.
  - destruct (truthy (timestamp_field merge_config)) as [ts|]; intros H.
    + do 3 bind_ok H. injection H as <-.
      match goal with
      | |- context [if ?c then _ else _] => destruct c
      end; split; try reflexivity. apply s_index_update.
    + injection H as <-. now split.
  - intros H. injection H as <-. now split.
  - intros H. injection H as <-. split; [apply s_index_update | reflexivity].
  - destruct (s_null_count record_b <? s_null_count record_a);
      intros H; injection H as <-; split; try reflexivity.
    apply s_index_update.
  - intros H. injection H as <-. apply s_index_combine.
Qed.

(** COMBINE on "alice"/"alicia": the resolved record has the fields of A;
    [extra], which only B has, is not among them. *)
Lemma resolution_keeps_fields_of_a_witness :
  s_index (mkSeries (VInt 0) [("name", VStr "alice | alicia");
                              ("score", VInt 1)])
  = ["name"; "score"]
  /\ s_name (mkSeries (VInt 0) [("name", VStr "alice | alicia");
                               ("score", VInt 1)])
     = VInt 0.
Proof.
  apply (resolution_keeps_fields_of_a (df_row alice_a 0) (df_row alicia_b 0)
           (mkSeries (VInt 0) [("name", VStr "alice | alicia");
                               ("score", VInt 1)])
           (_find_conflicts (df_row alice_a 0) (df_row alicia_b 0))
           (strategy_config ["name"] COMBINE None)).
  - discriminate.
  - reflexivity.
Defined.

(** X10.  KEEP_NEWEST, KEEP_OLDEST, KEEP_SOURCE_A, KEEP_SOURCE_B and
    KEEP_MOST_COMPLETE decide for the whole record at once: the resolved
    record is record A unchanged, or record A updated from record B, in
    which every field of A takes B's value wherever B has a non-null one
    and keeps A's value elsewhere.  After such an update no field
    conflicts with record B.  KEEP_SOURCE_A always gives the first and
    KEEP_SOURCE_B the second. *)
Theorem resolution_is_whole_record
    (record_a record_b : Series) (conflicts : Conflicts)
    (merge_config : MergeConfig) :
  (forall resolved,
      conflict_strategy merge_config <> COMBINE ->
      conflict_strategy merge_config <> CUSTOM ->
      _apply_resolution_strategy record_a record_b conflicts merge_config
      = Ok resolved ->
      resolved = record_a \/ resolved = s_update record_a record_b)
  /\ (conflict_strategy merge_config = KEEP_SOURCE_A ->
      _apply_resolution_strategy record_a record_b conflicts merge_config
      = Ok record_a)
  /\ (conflict_strategy merge_config = KEEP_SOURCE_B ->
      _apply_resolution_strategy record_a record_b conflicts merge_config
      = Ok (s_update record_a record_b))
  /\ (forall field,
        assoc field (s_items (s_update record_a record_b))
        = option_map (updated_cell record_b field)
            (assoc field (s_items record_a)))
  /\ _find_conflicts (s_update record_a record_b) record_b = [].
Proof.
  split; [|split; [|split; [|split]]].
  - intros resolved Hc1 Hc2. unfold _apply_resolution_strategy.
    destruct (conflict_strategy merge_config); try contradiction.
    + destruct (truthy (timestamp_field merge_config)) as [ts|]; intros H.
      * do 3 bind_ok H. injection H as <-.
        match goal with
        | |- context [if ?c then _ else _] => destruct c
        end; tauto.
      * injection H as <-. now left.
    + destruct (truthy (timestamp_field merge_config)) as [ts|]; intros H.
      * do 3 bind_ok H. injection H as <-.
        match goal with
        | |- context [if ?c then _ else _] => destruct c
        end; tauto.
      * injection H as <-. now left.
    + intros H. injection H as <-. now left.
    + intros H. injection H as <-. now right.
    + destruct (s_null_count record_b <? s_null_count record_a);
        intros H; injection H as <-; tauto.
  - intros H. unfold _apply_resolution_strategy. now rewrite H.
  - intros H. unfold _apply_resolution_strategy. now rewrite H.
  - intros field. apply assoc_update.
  - apply update_agrees.
Qed.

(** KEEP_MOST_COMPLETE on a record with a gap and a record that fills it:
    record B has fewer nulls, so A is updated from it; [val] and [n] take
    B's values, and [more], which only B has, is not added. *)
Lemma resolution_is_whole_record_witness :
  _apply_resolution_strategy record_gap record_fill
    (_find_conflicts record_gap record_fill)
    (strategy_config ["id"] KEEP_MOST_COMPLETE None)
  = Ok (mkSeries (VInt 0)
          [("id", VInt 1); ("val", VStr "v"); ("n", VInt 4); ("ts", VInt 10)])
  /\ (mkSeries (VInt 0)
        [("id", VInt 1); ("val", VStr "v"); ("n", VInt 4); ("ts", VInt 10)]
      = record_gap
      \/ mkSeries (VInt 0)
           [("id", VInt 1); ("val", VStr "v"); ("n", VInt 4); ("ts", VInt 10)]
         = s_update record_gap record_fill).
Proof.
  split; [reflexivity|].
  destruct (resolution_is_whole_record record_gap record_fill
              (_find_conflicts record_gap record_fill)
              (strategy_config ["id"] KEEP_MOST_COMPLETE None))
    as [Hwhole _].
  apply Hwhole; [discriminate | discriminate | reflexivity].
Defined.

Lemma Qlt_bool_inject_Z (x y : Z) :
  Qlt_bool (inject_Z x) (inject_Z y) = (x <? y).
Proof.
  unfold Qlt_bool, Qle_bool. simpl. rewrite !Z.mul_1_r.
  symmetry. apply Z.ltb_antisym.
Qed.

Lemma s_getitem_present (s : Series) (k : string) (v : Value) :
  assoc k (s_items s) = Some v -> s_getitem s k = Ok v.
Proof. intros H. unfold s_getitem. now rewrite H. Qed.

(** X11.  KEEP_NEWEST and KEEP_OLDEST with a timestamp field.  The field
    is read from record B first, then from record A; when either lacks it
    the resolution raises [KeyError].  With integer timestamps
    KEEP_NEWEST updates A from B exactly when B's timestamp is strictly
    greater, KEEP_OLDEST exactly when it is strictly smaller, so equal
    timestamps keep record A under both.  A missing timestamp ([NaN]) on
    record B compares false and keeps record A; a string against a number
    raises [TypeError]. *)
Theorem timestamp_strategies
    (record_a record_b : Series) (conflicts : Conflicts)
    (merge_config : MergeConfig) (ts : string) :
  timestamp_field merge_config = Some ts ->
  ts <> "" ->
  conflict_strategy merge_config = KEEP_NEWEST
  \/ conflict_strategy merge_config = KEEP_OLDEST ->
  let resolve :=
    _apply_resolution_strategy record_a record_b conflicts merge_config in
  (~ In ts (s_index record_b) -> resolve = Raise (key_error ts))
  /\ (~ In ts (s_index record_a) -> resolve = Raise (key_error ts))
  /\ (forall ts_a ts_b,
        assoc ts (s_items record_a) = Some (VInt ts_a) ->
        assoc ts (s_items record_b) = Some (VInt ts_b) ->
        resolve
        = Ok (if b_wins (conflict_strategy merge_config) ts_a ts_b
              then s_update record_a record_b else record_a))
  /\ (forall ts_a,
        assoc ts (s_items record_a) = Some (VInt ts_a) ->
        assoc ts (s_items record_b) = Some VNaN ->
        resolve = Ok record_a)
  /\ (forall text ts_b,
        assoc ts (s_items record_a) = Some (VStr text) ->
        assoc ts (s_items record_b) = Some (VInt ts_b) ->
        exists message, resolve = Raise (mkExn TypeError message)).
Proof.
  intros Hts Hne Hstrategy resolve.
  assert (Htruthy : truthy (timestamp_field merge_config) = Some ts).
  { rewrite Hts. destruct ts; [contradiction | reflexivity]. }
  subst resolve. unfold _apply_resolution_strategy.
  split; [|split; [|split; [|split]]].
  - intros Hb.
    destruct Hstrategy as [-> | ->]; rewrite Htruthy;
      now rewrite (s_getitem_missing _ _ Hb).
  - intros Ha.
    destruct Hstrategy as [-> | ->]; rewrite Htruthy;
      (destruct (s_getitem record_b ts) as [tb|e] eqn:Eb;
       [now rewrite (s_getitem_missing _ _ Ha)|]);
      unfold s_getitem in Eb;
      (destruct (assoc ts (s_items record_b)) eqn:E; [discriminate|]);
      now injection Eb as <-.
  - intros ts_a ts_b Ha Hb.
    destruct Hstrategy as [-> | ->]; rewrite Htruthy;
      rewrite (s_getitem_present _ _ _ Ha), (s_getitem_present _ _ _ Hb);
      unfold py_gt; simpl; now rewrite Qlt_bool_inject_Z.
  - intros ts_a Ha Hb.
    destruct Hstrategy as [-> | ->]; rewrite Htruthy;
      rewrite (s_getitem_present _ _ _ Ha), (s_getitem_present _ _ _ Hb);
      reflexivity.
  - intros text ts_b Ha Hb.
    destruct Hstrategy as [-> | ->]; rewrite Htruthy;
      rewrite (s_getitem_present _ _ _ Ha), (s_getitem_present _ _ _ Hb);
      eexists; reflexivity.
Qed.

(** KEEP_OLDEST on A = {id: 1, val: "x", ts: 10} and
    B = {id: 1, val: "y", ts: 20}: B is not older, record A is kept. *)
Lemma timestamp_strategies_witness :
  _apply_resolution_strategy record_x record_y
    (_find_conflicts record_x record_y)
    (exact_config ["id"] KEEP_OLDEST (Some "ts"))
  = Ok record_x.
Proof.
  destruct (timestamp_strategies record_x record_y
              (_find_conflicts record_x record_y)
              (exact_config ["id"] KEEP_OLDEST (Some "ts")) "ts"
              eq_refl ltac:(discriminate) (or_intror eq_refl))
    as [_ [_ [Hint _]]].
  apply (Hint 10 20); reflexivity.
Defined.







(** *** The loop of [_resolve_conflicts] and the statistics *)

Lemma select_mask {A : Type} (p : A -> bool) (l : list A) :
  select (map p l) l = filter p l.
Proof.
  induction l as [|x l IH]; simpl; [reflexivity|].
  destruct (p x); now rewrite IH.
Qed.

Lemma nrows_unmatched (df : DataFrame) (labels : list Value) :
  nrows (df_filter df (map negb (isin (df_index df) labels)))
  = unmatched_rows df labels.
Proof.
  unfold nrows, df_filter, isin, unmatched_rows. cbn [df_index].
  rewrite map_map, select_mask. reflexivity.
Qed.

Lemma nrows_frame_of_series (rows : list Series) :
  nrows (frame_of_series rows) = List.length rows.
Proof.
  destruct rows as [|r rows]; [reflexivity|].
  unfold frame_of_series, nrows. cbn [df_index]. apply length_map.
Qed.

Lemma nrows_iterrows (df : DataFrame) :
  List.length (iterrows df) = nrows df.
Proof.
  unfold nrows. rewrite <- (iterrows_labels df). now rewrite length_map.
Qed.

Lemma map_m_keys (record : Series) (keys : list string) :
  forall kv,
    map_m (fun k => v <- s_getitem record k ;; Ok (k, v)) keys = Ok kv ->
    map fst kv = keys.
Proof.
  induction keys as [|k keys IH]; intros kv H; simpl in H.
  - now injection H as <-.
  - destruct (s_getitem record k) as [v|e]; simpl in H; [|discriminate].
    destruct (map_m _ keys) as [kv'|e]; simpl in H; [|discriminate].
    injection H as <-. simpl. now rewrite (IH kv' eq_refl).
Qed.

(** One pair of records gives at most one report, and a well formed
    one. *)
Lemma resolve_records_report (record_a record_b resolved : Series)
    (config : MergeConfig) (new : list ConflictReport) :
  resolve_records record_a record_b config = Ok (resolved, new) ->
  (List.length new <= 1)%nat /\ Forall (well_formed_report config) new.
Proof.
  unfold resolve_records.
  destruct (_find_conflicts record_a record_b) as [|c cs] eqn:Ec.
  - intros H. injection H as <- <-. split; [simpl; lia | constructor].
  - intros H. do 2 bind_ok H. injection H as <- <-.
    split; [simpl; lia|]. constructor; [|constructor].
    split; [|split]; cbn [key_values fields].
    + eapply map_m_keys. eassumption.
    + discriminate.
    + intros field val_a val_b Hin. rewrite <- Ec in Hin.
      apply find_conflicts_values in Hin. tauto.
Qed.

Lemma resolve_match_report (df_a df_b : DataFrame) (config : MergeConfig)
    (match_row resolved : Series) (new : list ConflictReport) :
  resolve_match df_a df_b config match_row = Ok (resolved, new) ->
  (List.length new <= 1)%nat /\ Forall (well_formed_report config) new.
Proof.
  unfold resolve_match. intros H. do 4 bind_ok H.
  eapply resolve_records_report. eassumption.
Qed.

Lemma resolve_loop_counts (df_a df_b : DataFrame) (config : MergeConfig)
    (rows : list (Value * Series)) :
  forall reports resolved_data reports' resolved_data',
    resolve_loop df_a df_b config rows reports resolved_data
    = (reports', Ok resolved_data') ->
    List.length resolved_data'
    = (List.length resolved_data + List.length rows)%nat
    /\ (List.length reports'
        <= List.length reports + List.length rows)%nat
    /\ (Forall (well_formed_report config) reports ->
        Forall (well_formed_report config) reports').
Proof.
  induction rows as [|[label row] rows IH];
    intros reports resolved_data reports' resolved_data' H; simpl in H.
  - injection H as <- <-. split; [simpl; lia|]. split; [simpl; lia | tauto].
  - destruct (resolve_match df_a df_b config row) as [[resolved new]|e] eqn:E;
      [|discriminate].
    destruct (resolve_match_report _ _ _ _ _ _ E) as [Hlen Hwf].
    destruct (IH _ _ _ _ H) as [Hdata [Hreports Hall]].
    rewrite length_app in Hdata, Hreports. simpl in *.
    split; [lia|]. split; [lia|].
    intros Hold. apply Hall. apply Forall_app. now split.
Qed.

Lemma resolve_conflicts_counts (df_a df_b matches resolved_data : DataFrame)
    (config : MergeConfig) (reports : list ConflictReport) :
  _resolve_conflicts df_a df_b matches config = (reports, Ok resolved_data) ->
  nrows resolved_data = nrows matches
  /\ (List.length reports <= nrows matches)%nat
  /\ Forall (well_formed_report config) reports.
Proof.
  unfold _resolve_conflicts.
  destruct (resolve_loop df_a df_b config (iterrows matches) [] [])
    as [reports' [data|e]] eqn:E; intros H; [|discriminate].
  injection H as <- <-.
  destruct (resolve_loop_counts _ _ _ _ _ _ _ _ E) as [Hdata [Hreports Hall]].
  rewrite nrows_iterrows in Hdata, Hreports. simpl in *.
  rewrite nrows_frame_of_series.
  split; [exact Hdata|]. split; [exact Hreports|]. apply Hall. constructor.
Qed.

(** X13.  When [_resolve_conflicts] returns, the resolved data have one
    row per match, there are at most as many conflict reports as matches,
    and every report holds the key fields of the configuration in their
    order and at least one conflicting field, each of them with two
    different non-null values. *)
Theorem resolve_conflicts_one_row_per_match
    (df_a df_b matches resolved_data : DataFrame)
    (merge_config : MergeConfig) (reports : list ConflictReport) :
  _resolve_conflicts df_a df_b matches merge_config
  = (reports, Ok resolved_data) ->
  nrows resolved_data = nrows matches
  /\ (List.length reports <= nrows matches)%nat
  /\ Forall (well_formed_report merge_config) reports.
Proof. apply resolve_conflicts_counts. Qed.

(** The pair "alice"/"alicia" resolved for source A: one resolved row, one
    report, on [name]. *)
Lemma resolve_conflicts_one_row_per_match_witness :
  exists reports resolved_data,
    _resolve_conflicts alice_a alicia_b matches_first
      (exact_config ["name"] KEEP_SOURCE_A None)
    = (reports, Ok resolved_data)
    /\ nrows resolved_data = nrows matches_first
    /\ (List.length reports <= nrows matches_first)%nat
    /\ Forall (well_formed_report (exact_config ["name"] KEEP_SOURCE_A None))
         reports.
Proof.
  do 2 eexists. split; [reflexivity|].
  apply (resolve_conflicts_one_row_per_match alice_a alicia_b matches_first
           _ (exact_config ["name"] KEEP_SOURCE_A None) _ eq_refl).
Defined.

Lemma nrows_concat3 (d1 d2 d3 : DataFrame) :
  nrows (concat [d1; d2; d3]) = (nrows d1 + nrows d2 + nrows d3)%nat.
Proof.
  unfold nrows, concat. cbn [df_index flat_map].
  rewrite !length_app. simpl. lia.
Qed.

Lemma nrows_cleanup (df : DataFrame) (ignored : list string) :
  nrows (_cleanup_merged_data df ignored) = nrows df.
Proof.
  rewrite cleanup_frame. unfold nrows at 1. cbn [df_index].
  apply range_index_length.
Qed.

(** X14.  The statistics of a successful merge.  [total_records] is the
    number of matches plus the rows of A whose label is in no match plus
    the rows of B whose label is in no match, the unmatched rows being
    counted by label as [_handle_unmatched] keeps them; [source_a_only]
    and [source_b_only] are the differences
    [len(df) - len(matches)], and [conflicts_resolved] is at most
    [matches_found].  So the counts add up to [total_records] exactly when
    the unmatched rows number [len(df_a) + len(df_b) - 2 * len(matches)]. *)
Theorem stats_count_rows_by_label
    (source_a source_b : Source) (merge_config : MergeConfig) :
  success (merge source_a source_b merge_config) = true ->
  exists df_a df_b matches idx_a idx_b st,
    merge_front source_a source_b merge_config = Ok (df_a, df_b, matches)
    /\ df_getitem matches "idx_a" = Ok idx_a
    /\ df_getitem matches "idx_b" = Ok idx_b
    /\ stats (merge source_a source_b merge_config) = Some st
    /\ matches_found st = Z.of_nat (nrows matches)
    /\ total_records st
       = matches_found st
         + Z.of_nat (unmatched_rows df_a (c_values idx_a))
         + Z.of_nat (unmatched_rows df_b (c_values idx_b))
    /\ source_a_only st = Z.of_nat (nrows df_a) - Z.of_nat (nrows matches)
    /\ source_b_only st = Z.of_nat (nrows df_b) - Z.of_nat (nrows matches)
    /\ 0 <= conflicts_resolved st <= matches_found st
    /\ (conserved st
        <-> Z.of_nat (unmatched_rows df_a (c_values idx_a))
            + Z.of_nat (unmatched_rows df_b (c_values idx_b))
            = Z.of_nat (nrows df_a) + Z.of_nat (nrows df_b)
              - 2 * Z.of_nat (nrows matches)).
Proof.
  unfold merge.
  destruct (merge_front source_a source_b merge_config)
    as [[[a b] m]|e]; [|discriminate].
  destruct (_resolve_conflicts a b m merge_config)
    as [reports [resolved_data|e]] eqn:Eres; [|discriminate].
  destruct (resolve_conflicts_counts _ _ _ _ _ _ Eres) as [Hrows [Hrep _]].
  unfold merge_back, _handle_unmatched.
  destruct (df_getitem m "idx_a") as [ca|e] eqn:Ea; cbn [bind];
    [|discriminate].
  destruct (df_getitem m "idx_b") as [cb|e] eqn:Eb; cbn [bind];
    [|discriminate].
  intros _. exists a, b, m, ca, cb. eexists.
  split; [reflexivity|]. split; [exact Ea|]. split; [exact Eb|].
  split; [reflexivity|].
  cbn [matches_found total_records source_a_only source_b_only
       conflicts_resolved].
  rewrite nrows_cleanup, nrows_concat3, !nrows_unmatched, Hrows.
  split; [reflexivity|]. split; [lia|]. split; [reflexivity|].
  split; [reflexivity|]. split; [lia|].
  unfold conserved.
  cbn [matches_found total_records source_a_only source_b_only]. lia.
Qed.

(** Two rows of A matched with the one row of B: 2 = 2 + 0 + 0, while the
    differences are 0 and -1. *)
Lemma stats_count_rows_by_label_witness :
  exists df_a df_b matches idx_a idx_b st,
    merge_front tagged_twice one_row (exact_config ["id"] KEEP_NEWEST None)
    = Ok (df_a, df_b, matches)
    /\ df_getitem matches "idx_a" = Ok idx_a
    /\ df_getitem matches "idx_b" = Ok idx_b
    /\ stats (merge tagged_twice one_row (exact_config ["id"] KEEP_NEWEST None))
       = Some st
    /\ total_records st
       = matches_found st
         + Z.of_nat (unmatched_rows df_a (c_values idx_a))
         + Z.of_nat (unmatched_rows df_b (c_values idx_b)).
Proof.
  destruct (stats_count_rows_by_label tagged_twice one_row
              (exact_config ["id"] KEEP_NEWEST None) eq_refl)
    as [a [b [m [ca [cb [st [Hf [Ha [Hb [Hst [_ [Htotal _]]]]]]]]]]]].
  exists a, b, m, ca, cb, st. tauto.
Defined.


(** *** The fuzzy scores at the edges *)

Lemma iterrows_first (df : DataFrame) :
  nrows df <> 0%nat -> exists r rows, iterrows df = r :: rows.
Proof.
  unfold iterrows. destruct (nrows df) as [|n]; [contradiction|].
  intros _. simpl. eauto.
Qed.

Lemma nrows_rename (df : DataFrame) (mappings : list (string * string)) :
  nrows (rename df mappings) = nrows df.
Proof. reflexivity. Qed.

(** X15.  With no key field at all the validation and the preparation of
    the keys pass, and in fuzzy mode the first pair of rows is scored by
    [sum([]) / len([])]: whenever both sources have a row the merge fails
    with the message [division by zero]. *)
Theorem fuzzy_merge_without_keys_divides_by_zero
    (source_a source_b : Source) (merge_config : MergeConfig)
    (df_a df_b : DataFrame) :
  key_fields merge_config = [] ->
  merge_similar merge_config = true ->
  _to_dataframe source_a = Ok df_a ->
  _to_dataframe source_b = Ok df_b ->
  nrows df_a <> 0%nat ->
  nrows df_b <> 0%nat ->
  _validate_merge_keys df_a df_b merge_config = Ok tt
  /\ merge source_a source_b merge_config
     = failed [] (mkExn ZeroDivisionError "division by zero").
Proof.
  intros Hkeys Hsim Ha Hb Hna Hnb.
  split; [unfold _validate_merge_keys; now rewrite Hkeys|].
  unfold merge, merge_front. rewrite Ha, Hb. cbn [bind].
  unfold _validate_merge_keys, _prepare_merge_keys, _apply_field_mappings.
  rewrite Hkeys. cbn [for_each bind prepare_loop].
  assert (Hfind :
            _find_matches (rename df_a (field_mappings merge_config))
              (rename df_b (field_mappings merge_config)) merge_config
            = Raise (mkExn ZeroDivisionError "division by zero")).
  { unfold _find_matches, _find_similar_matches, similar_matches.
    rewrite Hsim.
    destruct (iterrows_first (rename df_a (field_mappings merge_config)))
      as [ra [rows_a ->]]; [now rewrite nrows_rename|].
    destruct (iterrows_first (rename df_b (field_mappings merge_config)))
      as [rb [rows_b ->]]; [now rewrite nrows_rename|].
    cbn [flat_map_m]. unfold score_pair at 1. rewrite Hkeys. reflexivity. }
  destruct (negb (case_sensitive merge_config)); cbn [bind fst snd];
    now rewrite Hfind.
Qed.

(** Two sources of two rows each, no key. *)
Lemma fuzzy_merge_without_keys_divides_by_zero_witness :
  errors (merge left_ids right_ids (fuzzy_config [] (9 # 10)))
  = ["division by zero"].
Proof.
  destruct (fuzzy_merge_without_keys_divides_by_zero left_ids right_ids
              (fuzzy_config [] (9 # 10)) _ _
              eq_refl eq_refl eq_refl eq_refl
              ltac:(discriminate) ltac:(discriminate)) as [_ ->].
  reflexivity.
Defined.

Lemma sum_scores_range (scores : list Q) :
  (forall s, In s scores -> (0 <= s <= 1)%Q) ->
  forall (acc : Q) (n : Z),
    (0 <= acc <= inject_Z n)%Q ->
    (0 <= fold_left Qplus scores acc
     <= inject_Z (n + Z.of_nat (List.length scores)))%Q.
Proof.
  induction scores as [|s scores IH]; intros Hall acc n [Hlo Hhi].
  - simpl. rewrite Z.add_0_r. now split.
  - cbn [fold_left].
    replace (n + Z.of_nat (List.length (s :: scores)))
      with ((n + 1) + Z.of_nat (List.length scores))
      by (cbn [List.length]; lia).
    destruct (Hall s (or_introl eq_refl)) as [Hs0 Hs1].
    apply IH; [intros t Ht; apply Hall; now right|]. split.
    + rewrite <- (Qplus_0_l 0). now apply Qplus_le_compat.
    + rewrite inject_Z_plus. now apply Qplus_le_compat.
Qed.

Lemma mean_range (scores : list Q) :
  scores <> [] ->
  (forall s, In s scores -> (0 <= s <= 1)%Q) ->
  (0 <= mean scores <= 1)%Q.
Proof.
  intros Hne Hall. unfold mean, sum_scores.
  destruct (sum_scores_range scores Hall 0 0) as [Hlo Hhi];
    [split; apply Qle_refl|].
  rewrite Z.add_0_l in Hhi.
  assert (Hpos : (0 < inject_Z (Z.of_nat (List.length scores)))%Q).
  { destruct scores; [congruence|]. unfold Qlt. simpl. lia. }
  split.
  - apply Qle_shift_div_l; [exact Hpos|]. now rewrite Qmult_0_l.
  - apply Qle_shift_div_r; [exact Hpos|]. now rewrite Qmult_1_l.
Qed.

Lemma pair_similarity_range (df_a : DataFrame) (keys : list string)
    (row_a row_b : Series) :
  keys <> [] ->
  (0 <= spec_pair_similarity df_a keys row_a row_b <= 1)%Q.
Proof.
  intros Hne. unfold spec_pair_similarity. apply mean_range.
  - destruct keys; [congruence | discriminate].
  - intros s Hs. apply in_map_iff in Hs. destruct Hs as [k [<- _]].
    apply spec_field_similarity_range.
Qed.

Lemma flat_map_nil {A B : Type} (f : A -> list B) (l : list A) :
  (forall x, f x = []) -> flat_map f l = [].
Proof.
  intros H. induction l as [|x l IH]; simpl; [reflexivity|].
  now rewrite H, IH.
Qed.

Lemma all_pairs (score : Series -> Series -> Q)
    (rows_a rows_b : list (Value * Series)) :
  map match_pair
    (flat_map
       (fun a =>
          flat_map
            (fun b => [mkMatch (fst a) (fst b) (score (snd a) (snd b))])
            rows_b)
       rows_a)
  = list_prod (map fst rows_a) (map fst rows_b).
Proof.
  induction rows_a as [|a rows_a IH]; simpl; [reflexivity|].
  rewrite map_app, IH. f_equal. clear IH.
  induction rows_b as [|b rows_b IHb]; simpl; [reflexivity|].
  now rewrite IHb.
Qed.

Lemma spec_matches_in_range (df_a df_b : DataFrame) (config : MergeConfig)
    (z : Match) :
  key_fields config <> [] ->
  In z (spec_similar_matches df_a df_b config) ->
  In (m_idx_a z) (df_index df_a)
  /\ In (m_idx_b z) (df_index df_b)
  /\ (similarity_threshold config <= m_similarity z <= 1)%Q.
Proof.
  intros Hne H. unfold spec_similar_matches in H.
  apply in_flat_map in H. destruct H as [a [Ha H]].
  apply in_flat_map in H. destruct H as [b [Hb H]].
  destruct (Qle_bool _ _) eqn:E; [|destruct H].
  destruct H as [<-|[]]. cbn [m_idx_a m_idx_b m_similarity].
  rewrite <- (iterrows_labels df_a), <- (iterrows_labels df_b).
  split; [now apply in_map|]. split; [now apply in_map|].
  split; [now apply Qle_bool_iff|].
  now apply pair_similarity_range.
Qed.

(** X16.  The fuzzy score of a pair, and so the [similarity] of every
    reported match, lies between 0 and 1, and every match joins a label
    of A with a label of B.  So a threshold above 1 reports no match at
    all, and a threshold of 0 or less reports every pair of rows, in the
    order of the two loops: the matching is then the full cross product
    of the sources. *)
Theorem threshold_out_of_range
    (df_a df_b : DataFrame) (merge_config : MergeConfig) :
  key_fields merge_config <> [] ->
  (forall k, In k (key_fields merge_config) ->
             In k (columns df_a) /\ In k (columns df_b)) ->
  (forall ms z,
      similar_matches df_a df_b merge_config = Ok ms ->
      In z ms ->
      In (m_idx_a z) (df_index df_a)
      /\ In (m_idx_b z) (df_index df_b)
      /\ (similarity_threshold merge_config <= m_similarity z <= 1)%Q)
  /\ ((1 < similarity_threshold merge_config)%Q ->
      similar_matches df_a df_b merge_config = Ok [])
  /\ ((similarity_threshold merge_config <= 0)%Q ->
      exists ms,
        similar_matches df_a df_b merge_config = Ok ms
        /\ map match_pair ms = list_prod (df_index df_a) (df_index df_b)).
Proof.
  intros Hne Hkeys.
  pose proof (similar_matches_spec df_a df_b merge_config Hne Hkeys) as Hspec.
  split; [|split].
  - intros ms z Hms Hz. rewrite Hspec in Hms. injection Hms as <-.
    now apply (spec_matches_in_range df_a df_b).
  - intros Hthr. rewrite Hspec. f_equal. unfold spec_similar_matches.
    apply flat_map_nil. intros a. apply flat_map_nil. intros b.
    destruct (Qle_bool _ _) eqn:E; [|reflexivity].
    apply Qle_bool_iff in E.
    destruct (pair_similarity_range df_a (key_fields merge_config)
                (snd a) (snd b) Hne) as [_ Hhi].
    exfalso. apply (Qlt_not_le _ _ Hthr). eapply Qle_trans; eassumption.
  - intros Hthr. eexists. split; [exact Hspec|].
    unfold spec_similar_matches.
    rewrite <- (iterrows_labels df_a), <- (iterrows_labels df_b).
    rewrite <- (all_pairs (spec_pair_similarity df_a (key_fields merge_config))).
    f_equal. apply flat_map_ext. intros a. apply flat_map_ext. intros b.
    destruct (Qle_bool _ _) eqn:E; [reflexivity|].
    destruct (pair_similarity_range df_a (key_fields merge_config)
                (snd a) (snd b) Hne) as [Hlo _].
    assert (Hle : (similarity_threshold merge_config
                   <= spec_pair_similarity df_a (key_fields merge_config)
                        (snd a) (snd b))%Q)
      by (eapply Qle_trans; eassumption).
    apply Qle_bool_iff in Hle. congruence.
Qed.

(** One name on the left, two on the right, threshold 0: both pairs. *)
Lemma threshold_out_of_range_witness :
  exists ms,
    similar_matches names_a names_b (fuzzy_config ["name"] 0) = Ok ms
    /\ map match_pair ms = [(VInt 0, VInt 0); (VInt 0, VInt 1)].
Proof.
  destruct (threshold_out_of_range names_a names_b
              (fuzzy_config ["name"] 0)) as [_ [_ Hall]].
  - discriminate.
  - intros k [<-|[]]. simpl. tauto.
  - apply Hall. unfold Qle. simpl. lia.
Defined.
